(** * Alert types of the Ukraine alerts map: a shallow embedding

    This development embeds [src/types/AlertTypes.js] (the alert model
    [AlertData], the history entry [AlertHistoryEntry] and the helpers of
    [AlertUtils]) and settles the properties stated about it.  Of its
    callers it embeds what the map component computes from the alerts
    ([src/components/Map/UkraineMap.js]: the processed alerts, the critical
    alerts and the counts of the summary) and the table of the legend
    ([src/components/Legend/Legend.js]).

    Modelling conventions.
    - A JavaScript number that the code only ever uses at integer values is
      a [Z]; where the code can produce not-a-number (a subtraction on an
      invalid date, a product with [undefined]) the type is [num], an
      integer or [NaN].  Integers are
      exact below 2^53, which covers every time value a [Date] can hold;
      the sign of a zero is not modelled.
    - Strings are [string]; the empty string is the only falsy string.
    - A property bag read by the constructor ([data], [json], [update]) is a
      record of optional fields, [None] standing for a property that is
      absent, [undefined] or [null].  Fields carry the type the code uses
      them at.
    - [ThreatMetadata] is the object literal with its own nine keys; a
      bracket lookup [ThreatMetadata[token]] also finds what every object
      inherits from [Object.prototype], and is [ThreatMetadata_at].
    - A method that assigns to [this] returns its result together with the
      updated receiver.
    - The date parser and the date printer are those of the host, the
      class [Host]; a read of the clock is the argument [now]. *)

From stdpp Require Import base numbers option list strings gmap sorting pretty.
From Stdlib Require Import ZArith Lia Ascii String QArith.

Local Open Scope string_scope.
Local Open Scope Z_scope.

(** ** Numbers *)

Inductive num : Type :=
  | Num (z : Z)
  | NaN.

#[global] Instance num_eq_dec : EqDecision num.
Proof. solve_decision. Defined.

Module JsNum.

Definition add (x y : num) : num :=
  match x, y with Num a, Num b => Num (a + b) | _, _ => NaN end.

Definition sub (x y : num) : num :=
  match x, y with Num a, Num b => Num (a - b) | _, _ => NaN end.

Definition mul (x y : num) : num :=
  match x, y with Num a, Num b => Num (a * b) | _, _ => NaN end.

(** [x % d] for a positive integer constant [d]: the remainder has the
    sign of the dividend. *)
Definition rem (x : num) (d : Z) : num :=
  match x with Num a => Num (Z.rem a d) | NaN => NaN end.

(** [Math.floor(x / d)] for a positive integer constant [d]. *)
Definition floor_div (x : num) (d : Z) : num :=
  match x with Num a => Num (a / d) | NaN => NaN end.

(** [x > k]: every comparison with [NaN] is false. *)
Definition gtb (x : num) (k : Z) : bool :=
  match x with Num a => k <? a | NaN => false end.

(** [x < k], [x === k] and [x !== y]: [NaN] is below nothing and equal to
    nothing, itself included. *)
Definition ltb (x : num) (k : Z) : bool :=
  match x with Num a => a <? k | NaN => false end.

Definition eqb (x : num) (k : Z) : bool :=
  match x with Num a => a =? k | NaN => false end.

Definition strict_neq (x y : num) : bool :=
  match x, y with Num a, Num b => negb (a =? b) | _, _ => true end.

(** [Math.min(x, k)] *)
Definition min (x : num) (k : Z) : num :=
  match x with Num a => Num (Z.min a k) | NaN => NaN end.

(** [x || 0] *)
Definition or_zero (x : num) : num :=
  match x with Num a => Num a | NaN => Num 0 end.

(** [x] is a number below [y], both being numbers. *)
Definition lt (x y : num) : Prop :=
  match x, y with Num a, Num b => a < b | _, _ => False end.

(** [x] and [y] are two different numbers. *)
Definition le (x y : num) : Prop :=
  match x, y with Num a, Num b => a ≤ b | _, _ => False end.

Definition apart (x y : num) : Prop :=
  match x, y with Num a, Num b => a ≠ b | _, _ => False end.

(** The string a template literal puts for a number. *)
Definition toString (x : num) : string :=
  match x with Num a => pretty a | NaN => "NaN" end.

End JsNum.

(** ** Truthiness and the [||] defaults *)

Definition truthy (s : string) : bool := negb (String.eqb s "").

(** [o || d] for a string-valued property. *)
Definition str_or (o : option string) (d : string) : string :=
  match o with
  | Some s => if truthy s then s else d
  | None => d
  end.

(** [o || null] for a string-valued property. *)
Definition str_or_null (o : option string) : option string :=
  match o with
  | Some s => if truthy s then Some s else None
  | None => None
  end.

(** [!o] for a string-or-null field. *)
Definition falsy (o : option string) : bool :=
  match o with
  | Some s => negb (truthy s)
  | None => true
  end.

(** ** Enumerations *)

Module AlertLevel.
Definition NONE := "none".
Definition LOW := "low".
Definition MEDIUM := "medium".
Definition HIGH := "high".
Definition CRITICAL := "critical".
Definition AIR_RAID := "air_raid".
Definition TACTICAL_AVIATION := "tactical".
Definition BALLISTIC := "ballistic".
End AlertLevel.

Module ThreatType.
Definition AIR_RAID := "air_raid".
Definition TACTICAL_AVIATION := "tactical_aviation".
Definition CRUISE_MISSILES := "cruise_missiles".
Definition BALLISTIC_MISSILES := "ballistic_missiles".
Definition DRONES := "drones".
Definition ARTILLERY := "artillery".
Definition CHEMICAL := "chemical".
Definition NUCLEAR := "nuclear".
Definition STREET_FIGHTING := "street_fighting".
End ThreatType.

(** ** Threat metadata *)

Record ThreatMeta : Type := mkMeta {
  icon : string;
  color : string;
  priority : Z;
  pattern : option string
}.

(** The localized labels are display text only and are left out. *)
Definition ThreatMetadata : gmap string ThreatMeta :=
  list_to_map [
    (ThreatType.AIR_RAID, mkMeta "plane" "#dc143c" 10 None);
    (ThreatType.TACTICAL_AVIATION, mkMeta "fighter-jet" "#ff6b6b" 8 None);
    (ThreatType.CRUISE_MISSILES, mkMeta "rocket" "#ff4444" 9 None);
    (ThreatType.BALLISTIC_MISSILES, mkMeta "missile" "#cc0000" 10 None);
    (ThreatType.DRONES, mkMeta "drone" "#ff8866" 6 None);
    (ThreatType.ARTILLERY, mkMeta "explosion" "#ff9999" 7 (Some "dotted"));
    (ThreatType.CHEMICAL, mkMeta "biohazard" "#9932cc" 9 None);
    (ThreatType.NUCLEAR, mkMeta "radiation" "#8b0000" 10 None);
    (ThreatType.STREET_FIGHTING, mkMeta "shield-alt" "#cd5c5c" 5 (Some "striped"))
  ].

(** [Array.prototype.includes] on an array of strings. *)
Definition includes (l : list string) (x : string) : bool :=
  existsb (String.eqb x) l.

(** The names of the properties that every object inherits from
    [Object.prototype]; each holds a function or an object, so it is truthy,
    and none of these values has a [priority] or a [color]. *)
Definition Object_prototype_keys : list string :=
  [ "constructor"; "hasOwnProperty"; "isPrototypeOf"; "propertyIsEnumerable";
    "toLocaleString"; "toString"; "valueOf"; "__proto__";
    "__defineGetter__"; "__defineSetter__"; "__lookupGetter__";
    "__lookupSetter__" ].

(** What a bracket lookup on [ThreatMetadata] finds. *)
Inductive property : Type :=
  | Metadata (meta : ThreatMeta)
  | Inherited
  | Undefined.

(** [ThreatMetadata[key]]: the own property if there is one, else the
    inherited one, else [undefined]. *)
Definition ThreatMetadata_at (key : string) : property :=
  match ThreatMetadata !! key with
  | Some meta => Metadata meta
  | None => if includes Object_prototype_keys key then Inherited else Undefined
  end.

(** [(meta?.priority || 0)], an inherited value having no [priority]. *)
Definition priority_of (threat : string) : Z :=
  match ThreatMetadata_at threat with
  | Metadata meta => priority meta
  | Inherited => 0
  | Undefined => 0
  end.

(** ** The host: date parsing and printing *)

(** [Date_parse s] is the time value of [new Date(s)] in milliseconds,
    [NaN] for a string the host cannot parse (an invalid date);
    [toISOString t] is [new Date(t).toISOString()]. *)
Class Host : Type := {
  Date_parse : string -> num;
  toISOString : Z -> string
}.

(** ** Durations *)

Record Duration : Type := mkDuration {
  days : num;
  hours : num;
  minutes : num
}.

#[global] Instance Duration_eq_dec : EqDecision Duration.
Proof. solve_decision. Defined.

Definition zero_duration : Duration := mkDuration (Num 0) (Num 0) (Num 0).

Definition MS_PER_MINUTE : Z := 1000 * 60.
Definition MS_PER_HOUR : Z := 1000 * 60 * 60.
Definition MS_PER_DAY : Z := 1000 * 60 * 60 * 24.

(** ** Property bags: the [data] of a constructor, a [json], an [update] *)

Module Raw.

Record t : Type := mk {
  regionId : option string;
  regionName : option string;
  regionNameEn : option string;
  alertLevel : option string;
  threatTypes : option (list string);
  startTime : option string;
  endTime : option string;
  duration : option Duration;
  intensity : option num;
  subRegions : option (list string);
  isActive : option bool;
  lastUpdated : option string
}.

(** The empty object [{}]. *)
Definition empty : t :=
  mk None None None None None None None None None None None None.

End Raw.

(** ** AlertData *)

Module AlertData.

Record t : Type := mk {
  regionId : string;
  regionName : string;
  regionNameEn : string;
  alertLevel : string;
  threatTypes : list string;
  startTime : option string;
  endTime : option string;
  duration : Duration;
  intensity : num;
  subRegions : list string;
  isActive : bool;
  lastUpdated : string
}.

Definition set_duration (d : Duration) (this : t) : t :=
  mk (regionId this) (regionName this) (regionNameEn this) (alertLevel this)
     (threatTypes this) (startTime this) (endTime this) d (intensity this)
     (subRegions this) (isActive this) (lastUpdated this).

Definition set_intensity (i : num) (this : t) : t :=
  mk (regionId this) (regionName this) (regionNameEn this) (alertLevel this)
     (threatTypes this) (startTime this) (endTime this) (duration this) i
     (subRegions this) (isActive this) (lastUpdated this).

(** [new AlertData(data)], the clock reading [now]. *)
Definition constructor `{Host} (now : Z) (data : Raw.t) : t := {|
  regionId := str_or (Raw.regionId data) "";
  regionName := str_or (Raw.regionName data) "";
  regionNameEn := str_or (Raw.regionNameEn data) "";
  alertLevel := str_or (Raw.alertLevel data) AlertLevel.NONE;
  threatTypes := default [] (Raw.threatTypes data);
  startTime := str_or_null (Raw.startTime data);
  endTime := str_or_null (Raw.endTime data);
  duration := default zero_duration (Raw.duration data);
  intensity := JsNum.or_zero (default (Num 0) (Raw.intensity data));
  subRegions := default [] (Raw.subRegions data);
  isActive := default false (Raw.isActive data);
  lastUpdated := str_or (Raw.lastUpdated data) (toISOString now)
|}.

(** The properties of an instance, as a constructor reads them when it is
    handed an [AlertData] for [data]. *)
Definition props (this : t) : Raw.t := {|
  Raw.regionId := Some (regionId this);
  Raw.regionName := Some (regionName this);
  Raw.regionNameEn := Some (regionNameEn this);
  Raw.alertLevel := Some (alertLevel this);
  Raw.threatTypes := Some (threatTypes this);
  Raw.startTime := startTime this;
  Raw.endTime := endTime this;
  Raw.duration := Some (duration this);
  Raw.intensity := Some (intensity this);
  Raw.subRegions := Some (subRegions this);
  Raw.isActive := Some (isActive this);
  Raw.lastUpdated := Some (lastUpdated this)
|}.

(** [this.endTime ? new Date(this.endTime) : new Date()] *)
Definition endInstant `{Host} (now : Z) (this : t) : num :=
  match endTime this with
  | Some e => if truthy e then Date_parse e else Num now
  | None => Num now
  end.

(** [calculateDuration()]: the returned duration and the receiver after
    the call.  The early return leaves the stored duration as it is. *)
Definition calculateDuration `{Host} (now : Z) (this : t) : Duration * t :=
  match startTime this with
  | None => (zero_duration, this)
  | Some s =>
    if negb (truthy s) then (zero_duration, this) else
    let start := Date_parse s in
    let now' := endInstant now this in
    let diff := JsNum.sub now' start in
    let days := JsNum.floor_div diff MS_PER_DAY in
    let hours := JsNum.floor_div (JsNum.rem diff MS_PER_DAY) MS_PER_HOUR in
    let minutes := JsNum.floor_div (JsNum.rem diff MS_PER_HOUR) MS_PER_MINUTE in
    let d := mkDuration days hours minutes in
    (d, set_duration d this)
  end.

(** The callback of the loop in [calculateIntensity], acting on the
    running [intensity]. *)
Definition scoreStep (intensity : num) (threat : string) : num :=
  match ThreatMetadata_at threat with
  | Metadata metadata => JsNum.add intensity (Num (priority metadata * 10))
  | Inherited => JsNum.add intensity (JsNum.mul NaN (Num 10))
  | Undefined => intensity
  end.

(** [calculateIntensity()]: the loop over [threatTypes] is a left fold. *)
Definition calculateIntensity (this : t) : num * t :=
  let intensity := foldl scoreStep (Num 0) (threatTypes this) in
  let durationHours :=
    JsNum.add (JsNum.mul (days (duration this)) (Num 24)) (hours (duration this)) in
  let intensity :=
    if JsNum.gtb durationHours 72 then JsNum.add intensity (Num 20)
    else if JsNum.gtb durationHours 24 then JsNum.add intensity (Num 10)
    else if JsNum.gtb durationHours 6 then JsNum.add intensity (Num 5)
    else intensity in
  let i := JsNum.min intensity 100 in
  (i, set_intensity i this).

(** [getPrimaryThreat()]: [None] is the [null] of the empty threat list. *)
Definition getPrimaryThreat (this : t) : option string :=
  match threatTypes this with
  | [] => None
  | first :: _ =>
    Some (foldl (fun primary current =>
                   if priority_of primary <? priority_of current
                   then current else primary)
                first (threatTypes this))
  end.

(** The intensity bands of the fallback color. *)
Definition intensityColor (intensity : num) : string :=
  if JsNum.gtb intensity 80 then "#8b0000"
  else if JsNum.gtb intensity 60 then "#dc143c"
  else if JsNum.gtb intensity 40 then "#ff6b6b"
  else if JsNum.gtb intensity 20 then "#ffcccb"
  else "#ffe0e0".

(** [getColor()]: [None] is the [undefined] that the [color] of an
    inherited value is. *)
Definition getColor (this : t) : option string :=
  if String.eqb (alertLevel this) AlertLevel.NONE then Some "#ffffff"
  else
    match getPrimaryThreat this with
    | Some primaryThreat =>
      if truthy primaryThreat then
        match ThreatMetadata_at primaryThreat with
        | Metadata meta => Some (color meta)
        | Inherited => None
        | Undefined => Some (intensityColor (intensity this))
        end
      else Some (intensityColor (intensity this))
    | None => Some (intensityColor (intensity this))
    end.

Definition isCritical (this : t) : bool :=
  String.eqb (alertLevel this) AlertLevel.CRITICAL
  || includes (threatTypes this) ThreatType.BALLISTIC_MISSILES
  || includes (threatTypes this) ThreatType.NUCLEAR.

Definition toJSON (this : t) : Raw.t := {|
  Raw.regionId := Some (regionId this);
  Raw.regionName := Some (regionName this);
  Raw.regionNameEn := Some (regionNameEn this);
  Raw.alertLevel := Some (alertLevel this);
  Raw.threatTypes := Some (threatTypes this);
  Raw.startTime := startTime this;
  Raw.endTime := endTime this;
  Raw.duration := Some (duration this);
  Raw.intensity := Some (intensity this);
  Raw.subRegions := Some (subRegions this);
  Raw.isActive := Some (isActive this);
  Raw.lastUpdated := Some (lastUpdated this)
|}.

Definition fromJSON `{Host} (now : Z) (json : Raw.t) : t :=
  constructor now json.

(** [getFormattedDuration()], with the Ukrainian unit marks of the source
    ([д.] days, [год.] hours, [хв.] minutes). *)
Definition getFormattedDuration (this : t) : string :=
  let days := days (duration this) in
  let hours := hours (duration this) in
  let minutes := minutes (duration this) in
  if JsNum.gtb days 0 then
    JsNum.toString days +:+ " д. " +:+ JsNum.toString hours +:+ " год."
  else if JsNum.gtb hours 0 then
    JsNum.toString hours +:+ " год. " +:+ JsNum.toString minutes +:+ " хв."
  else
    JsNum.toString minutes +:+ " хв.".

End AlertData.

(** ** AlertHistoryEntry *)

Module AlertHistoryEntry.

Record t : Type := mk {
  id : string;
  regionId : string;
  alertLevel : string;
  threatTypes : list string;
  startTime : string;
  endTime : option string;
  duration : option Duration;
  maxIntensity : Z
}.

Definition isActive (this : t) : bool := falsy (endTime this).

Definition getTotalMinutes (this : t) : num :=
  match duration this with
  | None => Num 0
  | Some d =>
    JsNum.add
      (JsNum.add (JsNum.mul (JsNum.mul (days d) (Num 24)) (Num 60))
                 (JsNum.mul (hours d) (Num 60)))
      (minutes d)
  end.

End AlertHistoryEntry.

(** ** Completions: a value or a thrown [TypeError] *)

Inductive result (A : Type) : Type :=
  | Ok (a : A)
  | TypeError (message : string).

Arguments Ok {A} a.
Arguments TypeError {A} message.

#[global] Instance result_ret : MRet result := fun A a => Ok a.

#[global] Instance result_bind : MBind result := fun A B f m =>
  match m with
  | Ok a => f a
  | TypeError msg => TypeError msg
  end.

(** ** The objects handed to the sort *)

(** The two classes of the module whose instances a caller can put in the
    array.  A method a class does not define is [undefined], and calling
    it throws. *)
Inductive obj : Type :=
  | OAlert (a : AlertData.t)
  | OHistory (h : AlertHistoryEntry.t).

Definition no_getTotalMinutes : string := "getTotalMinutes is not a function".
Definition no_isCritical : string := "isCritical is not a function".

Definition call_isCritical (o : obj) : result bool :=
  match o with
  | OAlert a => Ok (AlertData.isCritical a)
  | OHistory _ => TypeError no_isCritical
  end.

Definition call_getTotalMinutes (o : obj) : result num :=
  match o with
  | OAlert _ => TypeError no_getTotalMinutes
  | OHistory h => Ok (AlertHistoryEntry.getTotalMinutes h)
  end.

(** [o.intensity]: [None] is [undefined]. *)
Definition get_intensity (o : obj) : option num :=
  match o with
  | OAlert a => Some (AlertData.intensity a)
  | OHistory _ => None
  end.

(** [x - y] on property values: [undefined] converts to [NaN]. *)
Definition sub_values (x y : option num) : num :=
  match x, y with
  | Some a, Some b => JsNum.sub a b
  | _, _ => NaN
  end.

(** [x !== y] on property values: [undefined] differs from every number
    and from nothing else. *)
Definition neq_values (x y : option num) : bool :=
  match x, y with
  | Some a, Some b => JsNum.strict_neq a b
  | None, None => false
  | _, _ => true
  end.

(** ** AlertUtils *)

Module AlertUtils.

Definition getAlertLevelFromIntensity (intensity : num) : string :=
  if JsNum.eqb intensity 0 then AlertLevel.NONE
  else if JsNum.ltb intensity 20 then AlertLevel.LOW
  else if JsNum.ltb intensity 40 then AlertLevel.MEDIUM
  else if JsNum.ltb intensity 70 then AlertLevel.HIGH
  else AlertLevel.CRITICAL.

(** The comparator of [sortByAlertPriority], with [&&] short-circuiting. *)
Definition compareFn (a b : obj) : result num :=
  ca ← call_isCritical a;
  first ← (if ca : bool then cb ← call_isCritical b; mret (negb cb) else mret false);
  if first : bool then mret (Num (-1)) else
  ca' ← call_isCritical a;
  second ← (if negb ca' then call_isCritical b else mret false);
  if second : bool then mret (Num 1) else
  if neq_values (get_intensity a) (get_intensity b)
  then mret (sub_values (get_intensity b) (get_intensity a))
  else
    aDuration ← call_getTotalMinutes a;
    bDuration ← call_getTotalMinutes b;
    mret (JsNum.sub bDuration aDuration).

(** [SortCompare] of [Array.prototype.sort]: a [NaN] from the comparator
    counts as zero; only the sign of the result matters. *)
Definition SortCompare (x y : obj) : result Z :=
  v ← compareFn x y;
  mret (match v with Num z => z | NaN => 0 end).

(** [Array.prototype.sort] is stable, and an exception of the comparator
    ends it.  Which pairs it compares is left to the engine; the model is
    the stable insertion sort. *)
Fixpoint insert (x : obj) (sorted : list obj) : result (list obj) :=
  match sorted with
  | [] => mret [x]
  | y :: rest =>
    v ← SortCompare x y;
    if 0 <? v then (r ← insert x rest; mret (y :: r))
    else mret (x :: y :: rest)
  end.

Fixpoint sort (l : list obj) : result (list obj) :=
  match l with
  | [] => mret []
  | x :: rest => sorted ← sort rest; insert x sorted
  end.

Definition sortByAlertPriority (regions : list obj) : result (list obj) :=
  sort regions.

(** The loop over [Object.keys(update)]: a key whose value is neither
    [undefined] nor [null] is assigned. *)
Definition assign (update : Raw.t) (merged : AlertData.t) : AlertData.t := {|
  AlertData.regionId := default (AlertData.regionId merged) (Raw.regionId update);
  AlertData.regionName := default (AlertData.regionName merged) (Raw.regionName update);
  AlertData.regionNameEn := default (AlertData.regionNameEn merged) (Raw.regionNameEn update);
  AlertData.alertLevel := default (AlertData.alertLevel merged) (Raw.alertLevel update);
  AlertData.threatTypes := default (AlertData.threatTypes merged) (Raw.threatTypes update);
  AlertData.startTime :=
    match Raw.startTime update with
    | Some s => Some s
    | None => AlertData.startTime merged
    end;
  AlertData.endTime :=
    match Raw.endTime update with
    | Some s => Some s
    | None => AlertData.endTime merged
    end;
  AlertData.duration := default (AlertData.duration merged) (Raw.duration update);
  AlertData.intensity := default (AlertData.intensity merged) (Raw.intensity update);
  AlertData.subRegions := default (AlertData.subRegions merged) (Raw.subRegions update);
  AlertData.isActive := default (AlertData.isActive merged) (Raw.isActive update);
  AlertData.lastUpdated := default (AlertData.lastUpdated merged) (Raw.lastUpdated update)
|}.

Definition mergeAlertData `{Host} (now : Z)
    (existing : AlertData.t) (update : Raw.t) : AlertData.t :=
  let merged := AlertData.constructor now (AlertData.props existing) in
  let merged := assign update merged in
  let merged := snd (AlertData.calculateDuration now merged) in
  let merged := snd (AlertData.calculateIntensity merged) in
  merged.

Definition requiresImmediateAttention (alert : AlertData.t) : bool :=
  AlertData.isCritical alert
  || includes (AlertData.threatTypes alert) ThreatType.BALLISTIC_MISSILES
  || includes (AlertData.threatTypes alert) ThreatType.CRUISE_MISSILES.

End AlertUtils.

(** ** RegionData *)

(** Coordinates are finite numbers that the code only compares: they are
    rationals here.  The boundary geometry is opaque. *)
Module RegionData.

Section Geometry.

Variable GeoJSON : Type.

Record t : Type := mk {
  id : string;
  name : string;
  nameEn : string;
  center : Q * Q;
  bounds : option (Q * Q * Q * Q);
  population : Z;
  area : Q;
  type : string;
  parentId : option string;
  geoJSON : option GeoJSON
}.

(** [containsPoint(lat, lng)] with [bounds] being
    [[minLat, minLng, maxLat, maxLng]]. *)
Definition containsPoint (this : t) (lat lng : Q) : bool :=
  match bounds this with
  | None => false
  | Some (minLat, minLng, maxLat, maxLng) =>
    Qle_bool minLat lat && Qle_bool lat maxLat
    && Qle_bool minLng lng && Qle_bool lng maxLng
  end.

Definition getDisplayName (this : t) (language : string) : string :=
  if String.eqb language "en" then nameEn this else name this.

End Geometry.

Arguments mk {GeoJSON}.
Arguments bounds {GeoJSON}.
Arguments name {GeoJSON}.
Arguments nameEn {GeoJSON}.
Arguments containsPoint {GeoJSON}.
Arguments getDisplayName {GeoJSON}.

End RegionData.

(** ** Arrays *)

Module JsArray.

(** [SortCompare]: a [NaN] from the comparator counts as zero. *)
Definition SortCompare {A : Type} (compareFn : A → A → num) (x y : A) : Z :=
  match compareFn x y with Num z => z | NaN => 0 end.

(** [Array.prototype.sort] with a comparator that returns a number and
    does not throw: the stable insertion sort, as in [AlertUtils.sort]. *)
Fixpoint insert {A : Type} (compareFn : A → A → num) (x : A) (sorted : list A) : list A :=
  match sorted with
  | [] => [x]
  | y :: rest =>
    if 0 <? SortCompare compareFn x y then y :: insert compareFn x rest
    else x :: y :: rest
  end.

Fixpoint sort {A : Type} (compareFn : A → A → num) (l : list A) : list A :=
  match l with
  | [] => []
  | x :: rest => insert compareFn x (sort compareFn rest)
  end.

(** [slice(0, n)] *)
Definition slice0 {A : Type} (n : nat) (l : list A) : list A := take n l.

End JsArray.

(** ** The map component: what it computes from the alerts *)

Module UkraineMap.

(** The body of the loop of [processedAlerts]: construct, then derive
    duration and intensity. *)
Definition processAlert `{Host} (now : Z) (data : Raw.t) : AlertData.t :=
  let alertData := AlertData.constructor now data in
  let alertData := snd (AlertData.calculateDuration now alertData) in
  let alertData := snd (AlertData.calculateIntensity alertData) in
  alertData.


(** The comparator of [criticalAlerts]. *)
Definition byIntensity (a b : AlertData.t) : num :=
  JsNum.sub (AlertData.intensity b) (AlertData.intensity a).

(** [criticalAlerts], from [Object.values(processedAlerts)] in the
    engine's order. *)
Definition criticalAlerts (values : list AlertData.t) : list AlertData.t :=
  JsArray.sort byIntensity
    (filter (fun alert => AlertData.isActive alert && AlertData.isCritical alert) values).

(** The count in the summary header. *)
Definition activeCount (values : list AlertData.t) : nat :=
  List.length (filter (fun a => AlertData.isActive a) values).

(** The critical alerts the summary lists. *)
Definition listedCritical (values : list AlertData.t) : list AlertData.t :=
  JsArray.slice0 3 (criticalAlerts values).

End UkraineMap.

(** ** The legend *)

Module Legend.

Record item : Type := mkItem {
  type : string;
  color : string;
  pattern : option string;
  border : option string;
  icon : string;
  label : string;
  description : string
}.

Definition legendItems (language : string) : list item :=
  let uk := String.eqb language "uk" in
  [ mkItem "alert" "#dc143c" None None "plane"
      (if uk then "Повітряна тривога" else "Air raid alert")
      (if uk then "Активна повітряна тривога" else "Active air raid alert");
    mkItem "tactical" "#ff6b6b" None None "fighter-jet"
      (if uk then "Активність тактичної авіації" else "Tactical aviation activity")
      (if uk then "Зафіксована активність ворожої авіації"
       else "Enemy aviation activity detected");
    mkItem "missiles" "#ff4444" None None "rocket"
      (if uk then "Ракетна загроза" else "Missile threat")
      (if uk then "Загроза ракетного удару" else "Missile strike threat");
    mkItem "drones" "#ff8866" None None "drone"
      (if uk then "Загроза застосування БпЛА" else "UAV threat")
      (if uk then "Безпілотні літальні апарати" else "Unmanned aerial vehicles");
    mkItem "artillery" "#ff9999" (Some "dotted") None "explosion"
      (if uk then "Загроза артобстрілу" else "Artillery threat")
      (if uk then "Можливий артилерійський обстріл" else "Possible artillery shelling");
    mkItem "chemical" "#9932cc" None None "biohazard"
      (if uk then "Хімічна загроза" else "Chemical threat")
      (if uk then "Загроза хімічної атаки" else "Chemical attack threat");
    mkItem "nuclear" "#8b0000" None None "radiation"
      (if uk then "Радіаційна загроза" else "Radiation threat")
      (if uk then "Підвищений радіаційний фон" else "Elevated radiation levels");
    mkItem "fighting" "#cd5c5c" (Some "striped") None "shield-alt"
      (if uk then "Загроза вуличних боїв" else "Street fighting threat")
      (if uk then "Можливі бойові дії" else "Possible combat operations");
    mkItem "clear" "#ffffff" None (Some "#e2e8f0") "check-circle"
      (if uk then "Відбій тривоги" else "All clear")
      (if uk then "Немає активних загроз" else "No active threats") ].

End Legend.

(** ** Auxiliary notions for the statements *)

(** The total of a duration in minutes, the formula of
    [AlertHistoryEntry.getTotalMinutes]. *)
Definition totalMinutes (d : Duration) : num :=
  JsNum.add
    (JsNum.add (JsNum.mul (JsNum.mul (days d) (Num 24)) (Num 60))
               (JsNum.mul (hours d) (Num 60)))
    (minutes d).

(** The severity order of the five levels that
    [getAlertLevelFromIntensity] returns. *)
Definition levelRank (level : string) : Z :=
  if String.eqb level AlertLevel.NONE then 0
  else if String.eqb level AlertLevel.LOW then 1
  else if String.eqb level AlertLevel.MEDIUM then 2
  else if String.eqb level AlertLevel.HIGH then 3
  else 4.

(** A threat token that the metadata table knows. *)
Definition known (threat : string) : Prop := is_Some (ThreatMetadata !! threat).

(** [{...first, ...second}] restricted to the keys an update can carry
    with a value: the later update wins. *)
Definition overlay (first second : Raw.t) : Raw.t := {|
  Raw.regionId := from_option Some (Raw.regionId first) (Raw.regionId second);
  Raw.regionName := from_option Some (Raw.regionName first) (Raw.regionName second);
  Raw.regionNameEn := from_option Some (Raw.regionNameEn first) (Raw.regionNameEn second);
  Raw.alertLevel := from_option Some (Raw.alertLevel first) (Raw.alertLevel second);
  Raw.threatTypes := from_option Some (Raw.threatTypes first) (Raw.threatTypes second);
  Raw.startTime := from_option Some (Raw.startTime first) (Raw.startTime second);
  Raw.endTime := from_option Some (Raw.endTime first) (Raw.endTime second);
  Raw.duration := from_option Some (Raw.duration first) (Raw.duration second);
  Raw.intensity := from_option Some (Raw.intensity first) (Raw.intensity second);
  Raw.subRegions := from_option Some (Raw.subRegions first) (Raw.subRegions second);
  Raw.isActive := from_option Some (Raw.isActive first) (Raw.isActive second);
  Raw.lastUpdated := from_option Some (Raw.lastUpdated first) (Raw.lastUpdated second)
|}.

(** An update none of whose string values is empty. *)
Definition no_empty_string (u : Raw.t) : Prop :=
  Raw.alertLevel u ≠ Some ""
  ∧ Raw.startTime u ≠ Some ""
  ∧ Raw.endTime u ≠ Some ""
  ∧ Raw.lastUpdated u ≠ Some "".

(** ** The stated behaviour, in the words of the specification *)

Module Spec.

(** A threat's priority times ten, an unknown token contributing zero. *)
Definition threatScore (threat : string) : Z :=
  match ThreatMetadata !! threat with
  | Some meta => priority meta * 10
  | None => 0
  end.

(** The bonus for the total elapsed hours [days*24 + hours]. *)
Definition durationBonus (d : Duration) : Z :=
  match JsNum.add (JsNum.mul (days d) (Num 24)) (hours d) with
  | Num h =>
    if 72 <? h then 20 else if 24 <? h then 10 else if 6 <? h then 5 else 0
  | NaN => 0
  end.

Definition clamp (lo hi x : Z) : Z := Z.max lo (Z.min hi x).

Definition computeIntensity (threats : list string) (d : Duration) : Z :=
  clamp 0 100 (foldr Z.add 0 (threatScore <$> threats) + durationBonus d).

(** The flag the invariant prescribes: no end time and some threat. *)
Definition activeFlag (r : AlertData.t) : bool :=
  bool_decide (AlertData.endTime r = None)
  && negb (bool_decide (AlertData.threatTypes r = [])).

(** Whole days, hours and minutes of a span of [ms] milliseconds. *)
Definition breakdown (ms : Z) : Duration :=
  mkDuration (Num (ms / MS_PER_DAY))
             (Num ((ms mod MS_PER_DAY) / MS_PER_HOUR))
             (Num ((ms mod MS_PER_HOUR) / MS_PER_MINUTE)).

(** [computeDuration] on parsed instants: [start] is [None] when the start
    time is unset, [finish] is the end time if set and the clock if not. *)
Definition computeDuration (start : option Z) (finish : Z) : Duration :=
  match start with
  | None => zero_duration
  | Some s => breakdown (Z.max 0 (finish - s))
  end.

(** The color the specification gives a record. *)
Definition getColor (r : AlertData.t) : string :=
  if negb (AlertData.isActive r) then "#ffffff"
  else
    match AlertData.getPrimaryThreat r ≫= (ThreatMetadata !!.) with
    | Some meta => color meta
    | None => AlertData.intensityColor (AlertData.intensity r)
    end.

End Spec.

(** The first two keys of the ranking: [a] goes before [b] when [a] alone
    is critical, or when they agree on criticality and [a] is the more
    intense. *)
Definition precedes (a b : AlertData.t) : Prop :=
  (AlertData.isCritical a = true ∧ AlertData.isCritical b = false)
  ∨ (AlertData.isCritical a = AlertData.isCritical b
     ∧ JsNum.lt (AlertData.intensity b) (AlertData.intensity a)).

(** Two records that the first two keys tell apart: they differ in
    criticality, or their intensities are two different numbers. *)
Definition distinct_keys (a b : AlertData.t) : Prop :=
  AlertData.isCritical a ≠ AlertData.isCritical b
  ∨ JsNum.apart (AlertData.intensity a) (AlertData.intensity b).

(** A record as a constructor leaves it: no empty string where the
    constructor substitutes a default. *)
Definition normalised (r : AlertData.t) : Prop :=
  truthy (AlertData.alertLevel r) = true
  ∧ AlertData.startTime r ≠ Some ""
  ∧ AlertData.endTime r ≠ Some ""
  ∧ truthy (AlertData.lastUpdated r) = true.

(** A threat token that names a property inherited from
    [Object.prototype]. *)
Definition inherited (threat : string) : Prop :=
  includes Object_prototype_keys threat = true.

(** The duration every field of which is not-a-number. *)
Definition nan_duration : Duration := mkDuration NaN NaN NaN.

(** ** A host for the examples *)

(** A host that reads and prints the one format every engine agrees on,
    the [YYYY-MM-DDTHH:mm:ss.sssZ] of [toISOString], for the years 1970 to
    9999; any other string is an invalid date for it. *)
Module IsoHost.

Definition digit (a : ascii) : option Z :=
  let n := Z.of_nat (nat_of_ascii a) - 48 in
  if (0 <=? n) && (n <=? 9) then Some n else None.

Fixpoint number (acc : Z) (l : list ascii) : option Z :=
  match l with
  | [] => Some acc
  | a :: rest => d ← digit a; number (acc * 10 + d) rest
  end.

Definition isLeap (y : Z) : bool :=
  ((y mod 4 =? 0) && negb (y mod 100 =? 0)) || (y mod 400 =? 0).

Definition daysInMonth (y m : Z) : Z :=
  if m =? 2 then (if isLeap y then 29 else 28)
  else if (m =? 4) || (m =? 6) || (m =? 9) || (m =? 11) then 30
  else 31.

(** Days from 1970-01-01 to the civil date [y]-[m]-[d]. *)
Definition daysFromCivil (y m d : Z) : Z :=
  let y' := if m <=? 2 then y - 1 else y in
  let era := y' / 400 in
  let yoe := y' - era * 400 in
  let doy := (153 * (if 2 <? m then m - 3 else m + 9) + 2) / 5 + d - 1 in
  let doe := yoe * 365 + yoe / 4 - yoe / 100 + doy in
  era * 146097 + doe - 719468.

(** The civil date of a day count, the inverse of [daysFromCivil]. *)
Definition civilFromDays (z : Z) : Z * Z * Z :=
  let z := z + 719468 in
  let era := z / 146097 in
  let doe := z - era * 146097 in
  let yoe := (doe - doe / 1460 + doe / 36524 - doe / 146096) / 365 in
  let doy := doe - (365 * yoe + yoe / 4 - yoe / 100) in
  let mp := (5 * doy + 2) / 153 in
  let d := doy - (153 * mp + 2) / 5 + 1 in
  let m := if mp <? 10 then mp + 3 else mp - 9 in
  let y := yoe + era * 400 + (if m <=? 2 then 1 else 0) in
  (y, m, d).

Definition parse (s : string) : num :=
  match list_ascii_of_string s with
  | [y1; y2; y3; y4; c1; m1; m2; c2; d1; d2; c3;
     h1; h2; c4; n1; n2; c5; s1; s2; c6; f1; f2; f3; c7] =>
    if negb (Ascii.eqb c1 "-" && Ascii.eqb c2 "-" && Ascii.eqb c3 "T"
             && Ascii.eqb c4 ":" && Ascii.eqb c5 ":" && Ascii.eqb c6 "."
             && Ascii.eqb c7 "Z")
    then NaN
    else
      match number 0 [y1; y2; y3; y4], number 0 [m1; m2], number 0 [d1; d2],
            number 0 [h1; h2], number 0 [n1; n2], number 0 [s1; s2],
            number 0 [f1; f2; f3] with
      | Some y, Some m, Some d, Some h, Some n, Some sec, Some ms =>
        if (1970 <=? y) && (1 <=? m) && (m <=? 12) && (1 <=? d)
           && (d <=? daysInMonth y m) && (h <=? 23) && (n <=? 59)
           && (sec <=? 59)
        then Num ((((daysFromCivil y m d * 24 + h) * 60 + n) * 60 + sec) * 1000 + ms)
        else NaN
      | _, _, _, _, _, _, _ => NaN
      end
  | _ => NaN
  end.

Definition digitChar (d : Z) : ascii := ascii_of_nat (Z.to_nat (48 + d)).

(** [width] decimal digits of [n], most significant first. *)
Fixpoint pad (width : nat) (n : Z) (tail : list ascii) : list ascii :=
  match width with
  | O => tail
  | S w => pad w (n / 10) (digitChar (n mod 10) :: tail)
  end.

Definition print (t : Z) : string :=
  let '(y, m, d) := civilFromDays (t / MS_PER_DAY) in
  let ms := t mod MS_PER_DAY in
  string_of_list_ascii
    (pad 4 y ("-" :: pad 2 m ("-" :: pad 2 d ("T" ::
     pad 2 (ms / MS_PER_HOUR) (":" ::
     pad 2 (ms mod MS_PER_HOUR / MS_PER_MINUTE) (":" ::
     pad 2 (ms mod MS_PER_MINUTE / 1000) ("." ::
     pad 3 (ms mod 1000) ["Z"%char])))))))%char.

#[global] Instance host : Host := {|
  Date_parse := parse;
  toISOString := print
|}.

End IsoHost.

(** ** Sample records *)

Module Samples.

(** [new AlertData({})] with a fixed [lastUpdated]. *)
Definition blank : AlertData.t :=
  AlertData.mk "" "" "" "none" [] None None zero_duration (Num 0) [] false
               "1970-01-01T00:00:00.000Z".

Definition with_region (name : string) (r : AlertData.t) : AlertData.t :=
  AlertData.mk name (AlertData.regionName r) (AlertData.regionNameEn r)
    (AlertData.alertLevel r) (AlertData.threatTypes r) (AlertData.startTime r)
    (AlertData.endTime r) (AlertData.duration r) (AlertData.intensity r)
    (AlertData.subRegions r) (AlertData.isActive r) (AlertData.lastUpdated r).

(** Scenario 4: [A] is critical with intensity 60, [B] is not critical
    with intensity 95. *)
Definition A : AlertData.t :=
  AlertData.mk "A" "" "" "critical" [] None None zero_duration (Num 60) [] true
               "1970-01-01T00:00:00.000Z".

Definition B : AlertData.t :=
  AlertData.mk "B" "" "" "high" ["air_raid"] None None zero_duration (Num 95) [] true
               "1970-01-01T00:00:00.000Z".

(** A record one hour into an air raid that started at the epoch. *)
Definition raid : AlertData.t :=
  AlertData.mk "kyiv" "" "" "high" ["air_raid"]
               (Some "1970-01-01T00:00:00.000Z") None
               (mkDuration (Num 0) (Num 1) (Num 0)) (Num 100) [] true
               "1970-01-01T01:00:00.000Z".

(** A history entry of forty minutes. *)
Definition episode : AlertHistoryEntry.t :=
  AlertHistoryEntry.mk "1" "kyiv" "high" ["air_raid"]
    "1970-01-01T00:00:00.000Z" (Some "1970-01-01T00:40:00.000Z")
    (Some (mkDuration (Num 0) (Num 0) (Num 40))) 100.

(** [{threatTypes: ['air_raid']}] *)
Definition payload_air_raid : Raw.t :=
  Raw.mk None None None None (Some ["air_raid"]) None None None None None
         None None.

(** An end time one millisecond before the start time. *)
Definition payload_reversed : Raw.t :=
  Raw.mk (Some "kyiv") None None (Some "high") (Some ["air_raid"])
         (Some "1970-01-01T00:00:00.001Z") (Some "1970-01-01T00:00:00.000Z")
         None None None (Some false) None.

(** A start time that is no timestamp. *)
Definition payload_garbled : Raw.t :=
  Raw.mk (Some "kyiv") None None (Some "high") (Some ["air_raid"])
         (Some "not-a-date") None None None None (Some true) None.



(** [{alertLevel: 'critical', isActive: true, threatTypes}] *)
Definition payload_critical (threatTypes : list string) : Raw.t :=
  Raw.mk None None None (Some "critical") (Some threatTypes) None None None None
         None (Some true) None.

(** The payload of [raid]. *)
Definition payload_raid : Raw.t :=
  Raw.mk (Some "kyiv") None None (Some "high") (Some ["air_raid"])
         (Some "1970-01-01T00:00:00.000Z") None None None None (Some true) None.

(** [{regionId: 'other'}] *)
Definition update_region : Raw.t :=
  Raw.mk (Some "other") None None None None None None None None None None None.

(** [{threatTypes: ['drones'], endTime: '1970-01-01T00:30:00.000Z'}] *)
Definition update_end : Raw.t :=
  Raw.mk None None None None (Some ["drones"]) None
         (Some "1970-01-01T00:30:00.000Z") None None None None None.

End Samples.

(** * Properties *)

(** ** The metadata table *)

Lemma ThreatMetadata_priority_range (threat : string) (meta : ThreatMeta) :
  ThreatMetadata !! threat = Some meta → 5 ≤ priority meta ≤ 10.
Proof.
  unfold ThreatMetadata. intros Hlook.
  apply elem_of_list_to_map_2 in Hlook.
  repeat (apply elem_of_cons in Hlook as [Heq | Hlook];
          [ inversion Heq; subst; simpl; lia | ]).
  by apply elem_of_nil in Hlook.
Qed.

Lemma ThreatMetadata_no_empty_key : ThreatMetadata !! "" = None.
Proof. vm_compute. reflexivity. Qed.

Lemma threatScore_nonneg (threat : string) : 0 ≤ Spec.threatScore threat.
Proof.
  unfold Spec.threatScore. destruct (ThreatMetadata !! threat) eqn:E; [|lia].
  apply ThreatMetadata_priority_range in E. lia.
Qed.

(** ** Intensity *)

Lemma inherited_not_own (threat : string) :
  inherited threat → ThreatMetadata !! threat = None.
Proof.
  unfold inherited, includes. rewrite existsb_exists.
  intros (key & Hin & Heq). apply String.eqb_eq in Heq. subst key.
  cbn in Hin.
  repeat (destruct Hin as [<- | Hin]; [by vm_compute|]).
  done.
Qed.

Lemma ThreatMetadata_at_inherited (threat : string) :
  inherited threat → ThreatMetadata_at threat = Inherited.
Proof.
  intros Hin. unfold ThreatMetadata_at.
  rewrite (inherited_not_own threat Hin). unfold inherited in Hin. by rewrite Hin.
Qed.

Lemma ThreatMetadata_at_own (threat : string) (meta : ThreatMeta) :
  ThreatMetadata !! threat = Some meta → ThreatMetadata_at threat = Metadata meta.
Proof. unfold ThreatMetadata_at. by intros ->. Qed.

Lemma ThreatMetadata_at_plain (threat : string) :
  ThreatMetadata !! threat = None →
  ¬ inherited threat →
  ThreatMetadata_at threat = Undefined.
Proof.
  unfold ThreatMetadata_at, inherited. intros -> Hno.
  by destruct (includes Object_prototype_keys threat).
Qed.

#[global] Instance inherited_dec (threat : string) : Decision (inherited threat).
Proof. unfold inherited. apply _. Defined.

Lemma scoreStep_threatScore (acc : Z) (threat : string) :
  ¬ inherited threat →
  AlertData.scoreStep (Num acc) threat = Num (acc + Spec.threatScore threat).
Proof.
  intros Hno. unfold AlertData.scoreStep, Spec.threatScore.
  destruct (ThreatMetadata !! threat) as [meta|] eqn:E.
  - by rewrite (ThreatMetadata_at_own threat meta E).
  - rewrite (ThreatMetadata_at_plain threat E Hno). f_equal. lia.
Qed.

Lemma scoreStep_inherited (x : num) (threat : string) :
  inherited threat → AlertData.scoreStep x threat = NaN.
Proof.
  intros Hin. unfold AlertData.scoreStep.
  rewrite (ThreatMetadata_at_inherited threat Hin). by destruct x.
Qed.

Lemma scoreStep_NaN (threat : string) : AlertData.scoreStep NaN threat = NaN.
Proof. unfold AlertData.scoreStep. by destruct (ThreatMetadata_at threat). Qed.

Lemma foldl_scoreStep_NaN (threats : list string) :
  foldl AlertData.scoreStep NaN threats = NaN.
Proof.
  induction threats as [|t threats IH]; [done|].
  cbn [foldl]. by rewrite scoreStep_NaN.
Qed.

Lemma foldl_scoreStep (threats : list string) (acc : Z) :
  Forall (fun t => ¬ inherited t) threats →
  foldl AlertData.scoreStep (Num acc) threats
  = Num (acc + foldr Z.add 0 (Spec.threatScore <$> threats)).
Proof.
  intros Hall. revert acc. induction Hall as [|t threats Ht _ IH]; intros acc.
  - cbn. f_equal. lia.
  - rewrite fmap_cons. cbn [foldl foldr].
    rewrite scoreStep_threatScore, IH by done. f_equal. lia.
Qed.

Lemma foldl_scoreStep_inherited (threats : list string) (x : num) :
  Exists inherited threats → foldl AlertData.scoreStep x threats = NaN.
Proof.
  intros Hex. revert x. induction Hex as [t threats Ht | t threats _ IH]; intros x.
  - cbn [foldl]. by rewrite scoreStep_inherited, foldl_scoreStep_NaN.
  - cbn [foldl]. apply IH.
Qed.

Lemma score_sum_nonneg (threats : list string) :
  0 ≤ foldr Z.add 0 (Spec.threatScore <$> threats).
Proof.
  induction threats as [|t threats IH]; [cbn; lia|].
  rewrite fmap_cons. cbn [foldr].
  pose proof (threatScore_nonneg t). lia.
Qed.

Lemma score_sum_perm (l1 l2 : list string) :
  l1 ≡ₚ l2 →
  foldr Z.add 0 (Spec.threatScore <$> l1) = foldr Z.add 0 (Spec.threatScore <$> l2).
Proof.
  induction 1; rewrite ?fmap_cons; cbn [foldr]; [done | lia..].
Qed.

Lemma durationBonus_range (d : Duration) : 0 ≤ Spec.durationBonus d ≤ 20.
Proof.
  unfold Spec.durationBonus.
  destruct (JsNum.add _ _); [|lia].
  repeat case_match; lia.
Qed.

(** Without an inherited name among the threats the result is a number. *)
Lemma calculateIntensity_unfold (r : AlertData.t) :
  Forall (fun t => ¬ inherited t) (AlertData.threatTypes r) →
  fst (AlertData.calculateIntensity r)
  = Num (Z.min (foldr Z.add 0 (Spec.threatScore <$> AlertData.threatTypes r)
                + Spec.durationBonus (AlertData.duration r)) 100).
Proof.
  intros Hall. unfold AlertData.calculateIntensity. cbn [fst].
  rewrite (foldl_scoreStep _ 0 Hall).
  unfold Spec.durationBonus.
  destruct (JsNum.add _ _) as [h|]; cbn [JsNum.gtb].
  - repeat case_match; cbn; do 2 f_equal; lia.
  - cbn. do 2 f_equal; lia.
Qed.

(** With one, it is not. *)
Lemma calculateIntensity_NaN (r : AlertData.t) :
  Exists inherited (AlertData.threatTypes r) →
  fst (AlertData.calculateIntensity r) = NaN.
Proof.
  intros Hex. unfold AlertData.calculateIntensity. cbn [fst].
  rewrite (foldl_scoreStep_inherited _ _ Hex).
  by repeat case_match.
Qed.

(** C2. Where no threat token names a property inherited from
    [Object.prototype], [calculateIntensity] returns (and stores) the sum
    over the members of [threatTypes] of priority times ten, unknown tokens
    counting zero, plus the bonus for [days*24 + hours] (20 above 72, 10
    above 24, 5 above 6, else 0), clamped to the interval from 0 to 100.
    Where an unknown token names such a property ([constructor],
    [toString], ...), the guard lets the inherited value through and the
    result, returned and stored, is [NaN]: it is not within 0 and 100 and
    the token has not counted zero. The result does not depend on the
    order of the threats. *)
Theorem calculateIntensity_spec (r : AlertData.t) :
  (Exists inherited (AlertData.threatTypes r) →
   fst (AlertData.calculateIntensity r) = NaN
   ∧ AlertData.intensity (snd (AlertData.calculateIntensity r)) = NaN)
  ∧ (Forall (fun t => ¬ inherited t) (AlertData.threatTypes r) →
     fst (AlertData.calculateIntensity r)
       = Num (Spec.computeIntensity (AlertData.threatTypes r) (AlertData.duration r))
     ∧ AlertData.intensity (snd (AlertData.calculateIntensity r))
       = Num (Spec.computeIntensity (AlertData.threatTypes r) (AlertData.duration r))
     ∧ 0 ≤ Spec.computeIntensity (AlertData.threatTypes r) (AlertData.duration r) ≤ 100)
  ∧ ∀ r' : AlertData.t,
      AlertData.threatTypes r' ≡ₚ AlertData.threatTypes r →
      AlertData.duration r' = AlertData.duration r →
      fst (AlertData.calculateIntensity r') = fst (AlertData.calculateIntensity r).
Proof.
  pose proof (score_sum_nonneg (AlertData.threatTypes r)) as Hsum.
  pose proof (durationBonus_range (AlertData.duration r)) as Hbonus.
  split; [|split].
  - intros Hex.
    assert (AlertData.intensity (snd (AlertData.calculateIntensity r))
            = fst (AlertData.calculateIntensity r)) as -> by reflexivity.
    by rewrite (calculateIntensity_NaN r Hex).
  - intros Hall.
    assert (AlertData.intensity (snd (AlertData.calculateIntensity r))
            = fst (AlertData.calculateIntensity r)) as -> by reflexivity.
    rewrite (calculateIntensity_unfold r Hall).
    unfold Spec.computeIntensity, Spec.clamp.
    repeat split; first [lia | do 2 f_equal; lia | f_equal; lia].
  - intros r' Hperm Hdur.
    destruct (decide (Exists inherited (AlertData.threatTypes r))) as [Hex | Hno].
    + rewrite (calculateIntensity_NaN r Hex).
      apply calculateIntensity_NaN. by rewrite Hperm.
    + apply not_Exists_Forall in Hno; [|apply _].
      rewrite (calculateIntensity_unfold r Hno).
      rewrite calculateIntensity_unfold by (by rewrite Hperm).
      by rewrite (score_sum_perm _ _ Hperm), Hdur.
Qed.

(** Against C2 as stated. With the token [constructor] next to drones the
    result is [NaN], where the stated sum, the unknown token counting zero,
    is 60. *)
Lemma calculateIntensity_constructor :
  fst (AlertData.calculateIntensity
         (AlertData.mk "" "" "" "low" ["constructor"; "drones"] None None
            zero_duration (Num 0) [] true "")) = NaN
  ∧ Spec.computeIntensity ["constructor"; "drones"] zero_duration = 60.
Proof. split; vm_compute; reflexivity. Qed.

(** Scenario 1 and an unknown token: an air raid scores 100, drones with an
    unknown token score 60, and a day and a half adds 10. *)
Example calculateIntensity_examples :
  fst (AlertData.calculateIntensity Samples.raid) = Num 100
  ∧ fst (AlertData.calculateIntensity
           (AlertData.mk "" "" "" "low" ["sirens"; "drones"] None None
              (mkDuration (Num 1) (Num 12) (Num 0)) (Num 0) [] true "")) = Num 70.
Proof. split; vm_compute; reflexivity. Qed.

(** ** Alert levels *)

(** C10. [getAlertLevelFromIntensity] returns NONE exactly at 0, LOW
    between 0 and 20, MEDIUM from 20 up to 40, HIGH from 40 up to 70 and
    CRITICAL from 70 on; these bounds are not those of the color bands:
    55 and 65 share a level but not a color, 19 and 20 share a color but
    not a level. *)
Theorem getAlertLevelFromIntensity_bands (intensity : Z) :
  (AlertUtils.getAlertLevelFromIntensity (Num intensity) = AlertLevel.NONE
   ↔ intensity = 0)
  ∧ (0 < intensity < 20 →
     AlertUtils.getAlertLevelFromIntensity (Num intensity) = AlertLevel.LOW)
  ∧ (20 ≤ intensity < 40 →
     AlertUtils.getAlertLevelFromIntensity (Num intensity) = AlertLevel.MEDIUM)
  ∧ (40 ≤ intensity < 70 →
     AlertUtils.getAlertLevelFromIntensity (Num intensity) = AlertLevel.HIGH)
  ∧ (70 ≤ intensity →
     AlertUtils.getAlertLevelFromIntensity (Num intensity) = AlertLevel.CRITICAL)
  ∧ (AlertUtils.getAlertLevelFromIntensity (Num 55)
     = AlertUtils.getAlertLevelFromIntensity (Num 65)
     ∧ AlertData.intensityColor (Num 55) ≠ AlertData.intensityColor (Num 65))
  ∧ (AlertData.intensityColor (Num 19) = AlertData.intensityColor (Num 20)
     ∧ AlertUtils.getAlertLevelFromIntensity (Num 19)
       ≠ AlertUtils.getAlertLevelFromIntensity (Num 20)).
Proof.
  unfold AlertUtils.getAlertLevelFromIntensity. cbn [JsNum.eqb JsNum.ltb].
  repeat split; try (intros; repeat case_match; first [done | lia]).
  all: vm_compute; congruence.
Qed.

(** ** Ordering *)

(** The comparator on two [AlertData]: criticality decides, then the
    intensity; on a tie of both it calls [getTotalMinutes], which the class
    does not define. *)
Lemma compareFn_alert (a b : AlertData.t) :
  AlertUtils.compareFn (OAlert a) (OAlert b) =
    if AlertData.isCritical a && negb (AlertData.isCritical b) then Ok (Num (-1))
    else if negb (AlertData.isCritical a) && AlertData.isCritical b then Ok (Num 1)
    else if JsNum.strict_neq (AlertData.intensity a) (AlertData.intensity b)
         then Ok (JsNum.sub (AlertData.intensity b) (AlertData.intensity a))
         else TypeError no_getTotalMinutes.
Proof.
  unfold AlertUtils.compareFn. cbn.
  destruct (AlertData.isCritical a), (AlertData.isCritical b); cbn; try done.
  all: by destruct (JsNum.strict_neq _ _).
Qed.

(** On history entries the first call already throws. *)
Lemma compareFn_history (h : AlertHistoryEntry.t) (o : obj) :
  AlertUtils.compareFn (OHistory h) o = TypeError no_isCritical.
Proof. reflexivity. Qed.

(** Sorting two elements takes one comparison. *)
Lemma sortByAlertPriority_pair (x y : obj) :
  AlertUtils.sortByAlertPriority [x; y] =
    match AlertUtils.compareFn x y with
    | Ok v => if 0 <? match v with Num z => z | NaN => 0 end
              then Ok [y; x] else Ok [x; y]
    | TypeError msg => TypeError msg
    end.
Proof.
  unfold AlertUtils.sortByAlertPriority. cbn. unfold AlertUtils.SortCompare.
  destruct (AlertUtils.compareFn x y) as [v|msg]; cbn; [|done].
  by case_match.
Qed.

(** Where criticality or intensity tells two records apart, the comparator
    returns, and its sign is that of the ranking. *)
Lemma SortCompare_alert (a b : AlertData.t) :
  distinct_keys a b →
  ∃ v : Z, AlertUtils.SortCompare (OAlert a) (OAlert b) = Ok v
           ∧ (0 < v → precedes b a) ∧ (v ≤ 0 → precedes a b).
Proof.
  intros Hkeys. unfold AlertUtils.SortCompare. rewrite compareFn_alert.
  unfold distinct_keys, precedes in *.
  destruct (AlertData.isCritical a), (AlertData.isCritical b); cbn.
  1,4: destruct Hkeys as [? | Hkeys]; [done|];
       destruct (AlertData.intensity a) as [i|], (AlertData.intensity b) as [j|];
       try done; cbn in *;
       destruct (Z.eqb_spec i j); [done|]; cbn;
       eexists; split; [reflexivity|]; split; intros; right; split; (done || lia).
  - exists (-1). split; [done|]. split; intros; [lia | by left].
  - exists 1. split; [done|]. split; intros; [by left | lia].
Qed.

Lemma precedes_trans (a b c : AlertData.t) :
  precedes a b → precedes b c → precedes a c.
Proof.
  unfold precedes.
  destruct (AlertData.isCritical a), (AlertData.isCritical b),
    (AlertData.isCritical c);
    intros [[? ?]|[? ?]] [[? ?]|[? ?]]; try discriminate;
    first [ by left
          | right; split; [done|];
            destruct (AlertData.intensity a), (AlertData.intensity b),
              (AlertData.intensity c); cbn in *; first [done | lia] ].
Qed.

Lemma insert_alert (a : AlertData.t) (l : list AlertData.t) :
  Forall (distinct_keys a) l →
  StronglySorted precedes l →
  ∃ l' : list AlertData.t,
    AlertUtils.insert (OAlert a) (OAlert <$> l) = Ok (OAlert <$> l')
    ∧ l' ≡ₚ a :: l ∧ StronglySorted precedes l'.
Proof.
  induction l as [|y l IH]; intros Hkeys Hsorted.
  - exists [a]. split; [done|]. split; [done|]. repeat constructor.
  - apply Forall_cons in Hkeys as [Hy Hkeys].
    apply StronglySorted_cons in Hsorted as [Hyl Hsorted].
    rewrite fmap_cons. cbn [AlertUtils.insert].
    destruct (SortCompare_alert a y Hy) as (v & -> & Hpos & Hneg). cbn.
    destruct (Z.ltb_spec 0 v) as [Hv|Hv].
    + destruct (IH Hkeys Hsorted) as (l' & -> & Hperm & Hl'). cbn.
      exists (y :: l'). split; [done|]. split.
      * rewrite Hperm. apply Permutation_swap.
      * apply StronglySorted_cons. split; [|done].
        rewrite Hperm. apply Forall_cons. split; [by apply Hpos | done].
    + exists (a :: y :: l). split; [done|]. split; [done|].
      apply StronglySorted_cons. split.
      * apply Forall_cons. split; [by apply Hneg|].
        eapply Forall_impl; [exact Hyl|].
        intros z Hz. eapply precedes_trans; [by apply Hneg | done].
      * by apply StronglySorted_cons.
Qed.

(** The part of the ranking that the code delivers: a list of alert
    records that criticality and intensity tell apart pairwise is returned
    rearranged, critical records first and by descending intensity. *)
Lemma sortByAlertPriority_distinct (l : list AlertData.t) :
  ForallOrdPairs distinct_keys l →
  ∃ l' : list AlertData.t,
    AlertUtils.sortByAlertPriority (OAlert <$> l) = Ok (OAlert <$> l')
    ∧ l' ≡ₚ l ∧ StronglySorted precedes l'.
Proof.
  unfold AlertUtils.sortByAlertPriority.
  induction 1 as [|a l Ha Hl IH].
  - exists []. split; [done|]. split; [done | constructor].
  - destruct IH as (l1 & Hsort & Hperm & Hsorted).
    rewrite fmap_cons. cbn [AlertUtils.sort]. rewrite Hsort. cbn.
    destruct (insert_alert a l1) as (l' & -> & Hperm' & Hl'); [|done|].
    + by rewrite Hperm.
    + exists l'. split; [done|]. split; [|done]. by rewrite Hperm', Hperm.
Qed.

(** C1. Two alert records of equal criticality and equal intensity
    cannot be ordered: where the intensity is a number, the comparator
    throws in either argument order, and so does the sort of the two,
    instead of returning them in their input order. (Where it is [NaN],
    which is not equal to itself, the comparator returns [NaN] and the two
    stay as they are.) *)
Theorem sortByAlertPriority_tie_throws (a b : AlertData.t) :
  AlertData.isCritical a = AlertData.isCritical b →
  AlertData.intensity a = AlertData.intensity b →
  (AlertData.intensity a ≠ NaN →
   AlertUtils.compareFn (OAlert a) (OAlert b) = TypeError no_getTotalMinutes
   ∧ AlertUtils.compareFn (OAlert b) (OAlert a) = TypeError no_getTotalMinutes
   ∧ AlertUtils.sortByAlertPriority [OAlert a; OAlert b] = TypeError no_getTotalMinutes)
  ∧ (AlertData.intensity a = NaN →
     AlertUtils.compareFn (OAlert a) (OAlert b) = Ok NaN
     ∧ AlertUtils.sortByAlertPriority [OAlert a; OAlert b] = Ok [OAlert a; OAlert b]).
Proof.
  intros Hcrit Hint. split.
  - intros Hnum.
    assert (∀ x y : AlertData.t,
              AlertData.isCritical x = AlertData.isCritical y →
              AlertData.intensity x = AlertData.intensity y →
              AlertData.intensity x ≠ NaN →
              AlertUtils.compareFn (OAlert x) (OAlert y) = TypeError no_getTotalMinutes)
      as Hthrow.
    { intros x y Hc Hi Hn. rewrite compareFn_alert, Hc, <- Hi.
      destruct (AlertData.intensity x) as [i|]; [|done]. cbn.
      rewrite Z.eqb_refl. by destruct (AlertData.isCritical y). }
    split; [by apply Hthrow|]. split; [apply Hthrow; congruence|].
    rewrite sortByAlertPriority_pair. by rewrite (Hthrow a b Hcrit Hint Hnum).
  - intros Hnan.
    assert (AlertUtils.compareFn (OAlert a) (OAlert b) = Ok NaN) as Hcmp.
    { rewrite compareFn_alert, Hcrit, <- Hint, Hnan.
      by destruct (AlertData.isCritical b). }
    split; [exact Hcmp|].
    rewrite sortByAlertPriority_pair. by rewrite Hcmp.
Qed.

(** C1 at two blank records that differ in their region only. *)
Lemma sortByAlertPriority_tie_throws_witness :
  AlertUtils.sortByAlertPriority
    [OAlert (Samples.with_region "a" Samples.blank);
     OAlert (Samples.with_region "b" Samples.blank)]
  = TypeError no_getTotalMinutes.
Proof.
  refine (proj2 (proj2 (proj1 (sortByAlertPriority_tie_throws
                                 (Samples.with_region "a" Samples.blank)
                                 (Samples.with_region "b" Samples.blank) _ _) _)));
    first [reflexivity | discriminate].
Defined.

(** Scenario 4: criticality beats intensity. *)
Example sortByAlertPriority_scenario4 :
  AlertUtils.sortByAlertPriority [OAlert Samples.B; OAlert Samples.A]
  = Ok [OAlert Samples.A; OAlert Samples.B].
Proof. vm_compute. reflexivity. Qed.

(** Among records of equal criticality the higher intensity comes first. *)
Example sortByAlertPriority_intensity :
  AlertUtils.sortByAlertPriority [OAlert Samples.B; OAlert Samples.raid]
  = Ok [OAlert Samples.raid; OAlert Samples.B].
Proof. vm_compute. reflexivity. Qed.

(** Two history entries: [isCritical] is not a method of theirs. *)
Example sortByAlertPriority_history :
  AlertUtils.sortByAlertPriority [OHistory Samples.episode; OHistory Samples.episode]
  = TypeError no_isCritical.
Proof. vm_compute. reflexivity. Qed.

(** ** The active flag *)

Lemma calculateDuration_frame `{Host} (now : Z) (r : AlertData.t) :
  ∃ d, snd (AlertData.calculateDuration now r) = AlertData.set_duration d r.
Proof.
  unfold AlertData.calculateDuration.
  destruct (AlertData.startTime r) as [s|]; [destruct (truthy s)|]; cbn;
    first [ by eexists | exists (AlertData.duration r); by destruct r ].
Qed.

(** Against C3 as stated. The flag of a constructed record is the flag of
    its payload, and a payload of one threat and no end time, with no flag of its own, gives an
    inactive record. *)
Lemma isActive_not_derived :
  AlertData.isActive (AlertData.constructor 0 Samples.payload_air_raid) = false
  ∧ Spec.activeFlag (AlertData.constructor 0 Samples.payload_air_raid) = true.
Proof. split; vm_compute; reflexivity. Qed.

(** C3, as the code has it. The active flag is an input, not a derived
    field: a constructed record carries the payload's [isActive], false
    when the payload has none, and a merged record carries the update's
    [isActive] if it has one and the existing record's otherwise. *)
Theorem isActive_copied `{Host} (now : Z) :
  (∀ data : Raw.t,
     AlertData.isActive (AlertData.constructor now data)
     = default false (Raw.isActive data))
  ∧ (∀ (existing : AlertData.t) (update : Raw.t),
       AlertData.isActive (AlertUtils.mergeAlertData now existing update)
       = default (AlertData.isActive existing) (Raw.isActive update)).
Proof.
  split; [reflexivity|].
  intros existing update. unfold AlertUtils.mergeAlertData. cbn zeta.
  set (m := AlertUtils.assign update _).
  destruct (calculateDuration_frame now m) as [d ->].
  reflexivity.
Qed.

(** ** Durations *)

Lemma breakdown_whole_units (ms : Z) :
  0 ≤ ms →
  ∃ d h m : Z,
    Spec.breakdown ms = mkDuration (Num d) (Num h) (Num m)
    ∧ 0 ≤ d ∧ 0 ≤ h < 24 ∧ 0 ≤ m < 60
    ∧ d * MS_PER_DAY + h * MS_PER_HOUR + m * MS_PER_MINUTE ≤ ms
    ∧ ms < d * MS_PER_DAY + h * MS_PER_HOUR + m * MS_PER_MINUTE + MS_PER_MINUTE.
Proof.
  intros Hms. unfold Spec.breakdown, MS_PER_DAY, MS_PER_HOUR, MS_PER_MINUTE.
  eexists _, _, _. split; [reflexivity|].
  change (1000 * 60 * 60 * 24) with 86400000.
  change (1000 * 60 * 60) with 3600000.
  change (1000 * 60) with 60000.
  pose proof (Z.div_mod ms 86400000 ltac:(lia)) as Hd.
  pose proof (Z.mod_pos_bound ms 86400000 ltac:(lia)) as Hdr.
  pose proof (Z.div_mod (ms mod 86400000) 3600000 ltac:(lia)) as Hh.
  pose proof (Z.mod_pos_bound (ms mod 86400000) 3600000 ltac:(lia)) as Hhr.
  pose proof (Z.div_mod ms 3600000 ltac:(lia)) as Hm.
  pose proof (Z.mod_pos_bound ms 3600000 ltac:(lia)) as Hmr.
  pose proof (Z.div_mod (ms mod 3600000) 60000 ltac:(lia)) as Hn.
  pose proof (Z.mod_pos_bound (ms mod 3600000) 60000 ltac:(lia)) as Hnr.
  assert ((ms mod 86400000) mod 3600000 = ms mod 3600000) as Hmm.
  { rewrite <- (Z_mod_plus_full (ms mod 86400000) (24 * (ms / 86400000)) 3600000).
    f_equal. lia. }
  assert (0 ≤ ms / 86400000) by (apply Z.div_pos; lia).
  assert (0 ≤ ms mod 86400000 / 3600000) by (apply Z.div_pos; lia).
  assert (0 ≤ ms mod 3600000 / 60000) by (apply Z.div_pos; lia).
  assert (ms mod 86400000 / 3600000 < 24)
    by (apply Z.div_lt_upper_bound; lia).
  assert (ms mod 3600000 / 60000 < 60)
    by (apply Z.div_lt_upper_bound; lia).
  lia.
Qed.

(** Against C4 as stated. One millisecond backwards gives minus one day,
    hour and minute, where the breakdown of [max(0, end - start)] is all zero. *)
Lemma calculateDuration_negative :
  Date_parse "1970-01-01T00:00:00.001Z" = Num 1
  ∧ AlertData.startTime (AlertData.constructor 0 Samples.payload_reversed)
    = Some "1970-01-01T00:00:00.001Z"
  ∧ AlertData.endInstant 0 (AlertData.constructor 0 Samples.payload_reversed) = Num 0
  ∧ fst (AlertData.calculateDuration 0 (AlertData.constructor 0 Samples.payload_reversed))
    = mkDuration (Num (-1)) (Num (-1)) (Num (-1))
  ∧ Spec.computeDuration (Some 1) 0 = zero_duration.
Proof. repeat split; vm_compute; reflexivity. Qed.

(** C4, as the code has it. With no start time the result is the all-zero
    duration and the record is left as it is. With a start time, when start
    and end (the end time if set, the clock if not) are valid instants and
    the end is not before the start, the result is the breakdown of
    [end - start] into whole days, hours and minutes, the minutes cut off
    and no component negative; it is what the specification computes, and
    it is stored. *)
Theorem calculateDuration_breakdown `{Host} (now : Z) (r : AlertData.t) :
  (falsy (AlertData.startTime r) = true →
   AlertData.calculateDuration now r = (zero_duration, r))
  ∧ (∀ (s : string) (start finish : Z),
       AlertData.startTime r = Some s →
       truthy s = true →
       Date_parse s = Num start →
       AlertData.endInstant now r = Num finish →
       start ≤ finish →
       AlertData.calculateDuration now r
         = (Spec.computeDuration (Some start) finish,
            AlertData.set_duration (Spec.computeDuration (Some start) finish) r)
       ∧ ∃ d h m : Z,
           Spec.computeDuration (Some start) finish = mkDuration (Num d) (Num h) (Num m)
           ∧ 0 ≤ d ∧ 0 ≤ h < 24 ∧ 0 ≤ m < 60
           ∧ d * MS_PER_DAY + h * MS_PER_HOUR + m * MS_PER_MINUTE ≤ finish - start
           ∧ finish - start
             < d * MS_PER_DAY + h * MS_PER_HOUR + m * MS_PER_MINUTE + MS_PER_MINUTE).
Proof.
  split.
  - unfold AlertData.calculateDuration, falsy.
    destruct (AlertData.startTime r) as [s|]; [|done].
    by intros ->.
  - intros s start finish Hs Ht Hstart Hfinish Hle.
    assert (Spec.computeDuration (Some start) finish = Spec.breakdown (finish - start))
      as Hspec.
    { unfold Spec.computeDuration. by rewrite Z.max_r by lia. }
    split; [|rewrite Hspec; apply breakdown_whole_units; lia].
    rewrite Hspec. unfold AlertData.calculateDuration.
    rewrite Hs, Ht, Hstart, Hfinish. cbn.
    unfold Spec.breakdown.
    rewrite !Z.rem_mod_nonneg by (unfold MS_PER_DAY, MS_PER_HOUR; lia).
    reflexivity.
Qed.

(** C4 at scenario 1: two hours into an alert that started at the epoch. *)
Lemma calculateDuration_breakdown_witness :
  AlertData.calculateDuration 7200000 Samples.raid
  = (mkDuration (Num 0) (Num 2) (Num 0),
     AlertData.set_duration (mkDuration (Num 0) (Num 2) (Num 0)) Samples.raid).
Proof.
  apply (proj2 (calculateDuration_breakdown 7200000 Samples.raid)
           "1970-01-01T00:00:00.000Z" 0 7200000); [reflexivity..|lia].
Defined.

(** ** Unparsable timestamps *)

(** Against C7 as stated. A start time that is no timestamp gives a
    duration of three [NaN], not the all-zero duration. *)
Lemma calculateDuration_garbled :
  fst (AlertData.calculateDuration 0 (AlertData.constructor 0 Samples.payload_garbled))
  = nan_duration
  ∧ nan_duration ≠ zero_duration.
Proof. split; [vm_compute; reflexivity | discriminate]. Qed.

(** C7, as the code has it. A start time that is set but unparsable, or an
    end time that is set but unparsable next to a set start time, gives the
    duration whose days, hours and minutes are all [NaN], and stores it;
    the computation completes without throwing ([calculateDuration] has no
    throwing step). *)
Theorem calculateDuration_unparsable `{Host} (now : Z) (r : AlertData.t) (s : string) :
  AlertData.startTime r = Some s →
  truthy s = true →
  Date_parse s = NaN ∨ AlertData.endInstant now r = NaN →
  AlertData.calculateDuration now r
  = (nan_duration, AlertData.set_duration nan_duration r).
Proof.
  intros Hs Ht Hnan. unfold AlertData.calculateDuration.
  rewrite Hs, Ht. cbn.
  destruct Hnan as [-> | ->].
  - by destruct (AlertData.endInstant now r).
  - by destruct (Date_parse s).
Qed.

(** C7 at a record whose start time is [not-a-date]. *)
Lemma calculateDuration_unparsable_witness :
  AlertData.calculateDuration 0 (AlertData.constructor 0 Samples.payload_garbled)
  = (nan_duration,
     AlertData.set_duration nan_duration
       (AlertData.constructor 0 Samples.payload_garbled)).
Proof.
  apply (calculateDuration_unparsable 0 _ "not-a-date");
    [reflexivity | reflexivity | left; reflexivity].
Defined.

(** ** Colors *)



Lemma ThreatMetadata_at_empty : ThreatMetadata_at "" = Undefined.
Proof. vm_compute. reflexivity. Qed.


(** ** Merging *)

(** Against C6 as stated. An update that carries a region identifier
    replaces the existing one. *)
Lemma mergeAlertData_changes_regionId :
  AlertData.regionId Samples.raid = "kyiv"
  ∧ AlertData.regionId
      (AlertUtils.mergeAlertData 7200000 Samples.raid Samples.update_region)
    = "other".
Proof. split; vm_compute; reflexivity. Qed.

Lemma str_or_empty (s : string) : str_or (Some s) "" = s.
Proof.
  unfold str_or, truthy. destruct (String.eqb_spec s ""); by subst.
Qed.

(** C6, as the code has it. The merged record has the update's region
    identifier when the update carries one, and the existing record's
    otherwise; so an update without a region identifier never changes it. *)
Theorem mergeAlertData_regionId `{Host} (now : Z)
    (existing : AlertData.t) (update : Raw.t) :
  AlertData.regionId (AlertUtils.mergeAlertData now existing update)
  = default (AlertData.regionId existing) (Raw.regionId update).
Proof.
  unfold AlertUtils.mergeAlertData. cbn zeta.
  set (m := AlertUtils.assign update _).
  destruct (calculateDuration_frame now m) as [d ->].
  subst m. cbn [AlertData.regionId AlertData.set_intensity AlertData.set_duration
                  AlertData.calculateIntensity snd AlertUtils.assign
                  AlertData.constructor AlertData.props Raw.regionId].
  rewrite str_or_empty. reflexivity.
Qed.

(** ** Serialization *)

(** The map's processing of a payload, one hour after the epoch:
    construct, then derive duration and intensity. *)
Example raid_is_derived :
  snd (AlertData.calculateIntensity
         (snd (AlertData.calculateDuration 3600000
                 (AlertData.constructor 3600000 Samples.payload_raid))))
  = Samples.raid.
Proof. vm_compute. reflexivity. Qed.

Lemma str_or_truthy (s d : string) : truthy s = true → str_or (Some s) d = s.
Proof. unfold str_or. by intros ->. Qed.

Lemma str_or_null_normal (o : option string) : o ≠ Some "" → str_or_null o = o.
Proof.
  unfold str_or_null, truthy. destruct o as [s|]; [|done].
  destruct (String.eqb_spec s ""); by subst.
Qed.

(** A constructed record is normalised when the host prints a non-empty
    date. *)
Lemma constructor_normalised `{Host} (now : Z) (data : Raw.t) :
  truthy (toISOString now) = true →
  normalised (AlertData.constructor now data).
Proof.
  intros Hiso. unfold normalised, AlertData.constructor. cbn.
  repeat split.
  - unfold str_or. destruct (Raw.alertLevel data) as [s|]; [|done].
    by destruct (truthy s) eqn:E.
  - unfold str_or_null. destruct (Raw.startTime data) as [s|]; [|done].
    destruct (truthy s) eqn:E; [|done]. intros [= ->]. done.
  - unfold str_or_null. destruct (Raw.endTime data) as [s|]; [|done].
    destruct (truthy s) eqn:E; [|done]. intros [= ->]. done.
  - unfold str_or. destruct (Raw.lastUpdated data) as [s|]; [|done].
    by destruct (truthy s) eqn:E.
Qed.

(** Against C8 as stated. Loading does not recompute. A constructed record whose intensity was
    never derived keeps intensity 0 through the round trip, where
    recomputation gives 100; and [raid], derived at one hour, loaded at two
    hours, keeps the duration of one hour, where recomputation gives two. *)
Lemma fromJSON_not_recomputed :
  normalised (AlertData.constructor 0 Samples.payload_air_raid)
  ∧ AlertData.intensity
      (AlertData.fromJSON 0
         (AlertData.toJSON (AlertData.constructor 0 Samples.payload_air_raid)))
    = Num 0
  ∧ fst (AlertData.calculateIntensity
           (AlertData.fromJSON 0
              (AlertData.toJSON (AlertData.constructor 0 Samples.payload_air_raid))))
    = Num 100
  ∧ normalised Samples.raid
  ∧ AlertData.duration (AlertData.fromJSON 7200000 (AlertData.toJSON Samples.raid))
    = mkDuration (Num 0) (Num 1) (Num 0)
  ∧ fst (AlertData.calculateDuration 7200000
           (AlertData.fromJSON 7200000 (AlertData.toJSON Samples.raid)))
    = mkDuration (Num 0) (Num 2) (Num 0).
Proof.
  repeat split; try (vm_compute; reflexivity); discriminate.
Qed.

(** C8, as the code has it. The round trip of a normalised record through
    [toJSON] and [fromJSON] changes nothing but an intensity that is not a
    number, which is loaded as 0. So for a normalised record whose
    intensity is a number it gives back a record equal to it in every
    field, at whatever instant it is loaded; duration and intensity are
    those of the snapshot, copied and not recomputed, so recomputing them
    on the loaded record gives what recomputing them on the original
    gives. *)
Theorem fromJSON_toJSON `{Host} (now : Z) (r : AlertData.t) :
  normalised r →
  AlertData.fromJSON now (AlertData.toJSON r)
    = AlertData.set_intensity (JsNum.or_zero (AlertData.intensity r)) r
  ∧ (AlertData.intensity r ≠ NaN →
     AlertData.fromJSON now (AlertData.toJSON r) = r
     ∧ AlertData.duration (AlertData.fromJSON now (AlertData.toJSON r))
       = AlertData.duration r
     ∧ AlertData.intensity (AlertData.fromJSON now (AlertData.toJSON r))
       = AlertData.intensity r
     ∧ (∀ now' : Z,
          AlertData.calculateDuration now' (AlertData.fromJSON now (AlertData.toJSON r))
          = AlertData.calculateDuration now' r)
     ∧ AlertData.calculateIntensity (AlertData.fromJSON now (AlertData.toJSON r))
       = AlertData.calculateIntensity r).
Proof.
  intros (Hlevel & Hstart & Hend & Hupdated).
  assert (AlertData.fromJSON now (AlertData.toJSON r)
          = AlertData.set_intensity (JsNum.or_zero (AlertData.intensity r)) r) as Hload.
  { unfold AlertData.fromJSON, AlertData.constructor, AlertData.toJSON,
      AlertData.set_intensity.
    destruct r as [rid rname rnameEn level threats st et dur int subs act upd].
    cbn -[str_or str_or_null truthy] in *.
    rewrite !str_or_empty, (str_or_truthy level) by done.
    rewrite (str_or_truthy upd) by done.
    by rewrite !str_or_null_normal by done. }
  split; [exact Hload|]. intros Hnum.
  assert (AlertData.fromJSON now (AlertData.toJSON r) = r) as ->; [|done].
  rewrite Hload. destruct r as [? ? ? ? ? ? ? ? int ? ? ?].
  unfold AlertData.set_intensity. cbn in *. by destruct int.
Qed.

(** C8 at [raid], loaded an hour after it was derived. *)
Lemma fromJSON_toJSON_witness :
  AlertData.fromJSON 7200000 (AlertData.toJSON Samples.raid) = Samples.raid.
Proof.
  refine (proj1 (proj2 (fromJSON_toJSON 7200000 Samples.raid _) _));
    repeat split; first [reflexivity | discriminate].
Defined.

(** ** Idempotence of the merge *)

Lemma str_or_idem (o : option string) (d : string) :
  str_or (Some (str_or o d)) d = str_or o d.
Proof.
  unfold str_or at 1. destruct (truthy (str_or o d)) eqn:E; [done|].
  unfold str_or in *. destruct o as [s|]; [|done].
  destruct (truthy s) eqn:Es; [congruence | done].
Qed.

Lemma str_or_null_idem (o : option string) :
  str_or_null (str_or_null o) = str_or_null o.
Proof.
  unfold str_or_null. destruct o as [s|]; [|done].
  destruct (truthy s) eqn:E; [by rewrite E | done].
Qed.

Lemma calculateDuration_snd `{Host} (now : Z) (m : AlertData.t) :
  snd (AlertData.calculateDuration now m)
  = AlertData.set_duration
      (AlertData.duration (snd (AlertData.calculateDuration now m))) m.
Proof. by destruct (calculateDuration_frame now m) as [d ->]. Qed.

(** The stored duration after [calculateDuration] depends on the start and
    end times only, and on the stored duration when there is no start. *)
Lemma calculateDuration_duration_ext `{Host} (now : Z) (m m' : AlertData.t) :
  AlertData.startTime m' = AlertData.startTime m →
  AlertData.endTime m' = AlertData.endTime m →
  (falsy (AlertData.startTime m) = true →
   AlertData.duration m' = AlertData.duration m) →
  AlertData.duration (snd (AlertData.calculateDuration now m'))
  = AlertData.duration (snd (AlertData.calculateDuration now m)).
Proof.
  intros Hs He Hd.
  unfold AlertData.calculateDuration, AlertData.endInstant.
  rewrite Hs, He. unfold falsy in Hd.
  destruct (AlertData.startTime m) as [s|]; [|by apply Hd].
  destruct (truthy s); [done | by apply Hd].
Qed.

Lemma calculateIntensity_fst_ext (m m' : AlertData.t) :
  AlertData.threatTypes m' = AlertData.threatTypes m →
  AlertData.duration m' = AlertData.duration m →
  fst (AlertData.calculateIntensity m') = fst (AlertData.calculateIntensity m).
Proof.
  intros Ht Hd. unfold AlertData.calculateIntensity. cbn [fst].
  by rewrite Ht, Hd.
Qed.

(** Without a start time [calculateDuration] leaves the stored duration. *)
Lemma calculateDuration_no_start `{Host} (now : Z) (m : AlertData.t) :
  falsy (AlertData.startTime m) = true →
  AlertData.duration (snd (AlertData.calculateDuration now m)) = AlertData.duration m.
Proof.
  unfold AlertData.calculateDuration, falsy.
  destruct (AlertData.startTime m) as [s|]; [|done].
  by intros ->.
Qed.

(** C9. Merging the same update twice at the same instant gives what
    merging it once gives. *)
Theorem mergeAlertData_idempotent `{Host} (now : Z)
    (r : AlertData.t) (u : Raw.t) :
  AlertUtils.mergeAlertData now (AlertUtils.mergeAlertData now r u) u
  = AlertUtils.mergeAlertData now r u.
Proof.
  unfold AlertUtils.mergeAlertData. cbn zeta.
  set (m0 := AlertUtils.assign u (AlertData.constructor now (AlertData.props r))).
  set (m1 := snd (AlertData.calculateIntensity (snd (AlertData.calculateDuration now m0)))).
  set (m0' := AlertUtils.assign u (AlertData.constructor now (AlertData.props m1))).
  assert (AlertData.duration m1
          = AlertData.duration (snd (AlertData.calculateDuration now m0))) as Hm1d
    by reflexivity.
  assert (∀ d i, AlertData.set_intensity i (AlertData.set_duration d m0')
               = AlertData.set_intensity i (AlertData.set_duration d m0)) as Hframe.
  { intros d i. subst m0' m1. rewrite (calculateDuration_snd now m0).
    subst m0. destruct r, u. unfold AlertData.set_intensity, AlertData.set_duration.
    cbn -[str_or str_or_null truthy].
    f_equal;
      repeat match goal with
             | |- context [default _ ?o] => is_var o; destruct o; cbn -[str_or str_or_null truthy]
             | |- context [match ?o with Some _ => _ | None => _ end] =>
               is_var o; destruct o; cbn -[str_or str_or_null truthy]
             end;
      rewrite ?str_or_idem, ?str_or_null_idem; reflexivity. }
  assert (AlertData.startTime m0' = AlertData.startTime m0
          ∧ AlertData.endTime m0' = AlertData.endTime m0
          ∧ AlertData.threatTypes m0' = AlertData.threatTypes m0) as (Hs & He & Ht).
  { pose proof (Hframe zero_duration (Num 0)) as Heq.
    repeat split.
    - by apply (f_equal AlertData.startTime) in Heq.
    - by apply (f_equal AlertData.endTime) in Heq.
    - by apply (f_equal AlertData.threatTypes) in Heq. }
  assert (AlertData.duration (snd (AlertData.calculateDuration now m0'))
          = AlertData.duration (snd (AlertData.calculateDuration now m0))) as Hd.
  { apply calculateDuration_duration_ext; [done..|].
    intros Hfalsy.
    assert (AlertData.duration m0' = default (AlertData.duration m1) (Raw.duration u))
      as -> by reflexivity.
    assert (AlertData.duration m0
            = default (default zero_duration (Some (AlertData.duration r))) (Raw.duration u))
      as Hm0 by reflexivity.
    rewrite Hm1d, (calculateDuration_no_start now m0 Hfalsy), Hm0.
    by destruct (Raw.duration u). }
  pose proof (calculateDuration_snd now m0) as E0.
  pose proof (calculateDuration_snd now m0') as E0'. rewrite Hd in E0'.
  set (d := AlertData.duration (snd (AlertData.calculateDuration now m0))) in *.
  assert (fst (AlertData.calculateIntensity (AlertData.set_duration d m0'))
          = fst (AlertData.calculateIntensity (AlertData.set_duration d m0))) as Hi
    by (by apply calculateIntensity_fst_ext).
  rewrite E0'. subst m1. rewrite E0.
  change (snd (AlertData.calculateIntensity (AlertData.set_duration d m0')))
    with (AlertData.set_intensity
            (fst (AlertData.calculateIntensity (AlertData.set_duration d m0')))
            (AlertData.set_duration d m0')).
  change (snd (AlertData.calculateIntensity (AlertData.set_duration d m0)))
    with (AlertData.set_intensity
            (fst (AlertData.calculateIntensity (AlertData.set_duration d m0)))
            (AlertData.set_duration d m0)).
  rewrite Hi. apply Hframe.
Qed.

(** The second merge of an update that sets threats and an end time. *)
Example mergeAlertData_twice :
  AlertUtils.mergeAlertData 7200000
    (AlertUtils.mergeAlertData 7200000 Samples.raid Samples.update_end)
    Samples.update_end
  = AlertData.mk "kyiv" "" "" "high" ["drones"]
      (Some "1970-01-01T00:00:00.000Z") (Some "1970-01-01T00:30:00.000Z")
      (mkDuration (Num 0) (Num 0) (Num 30)) (Num 60) [] true
      "1970-01-01T01:00:00.000Z".
Proof. vm_compute. reflexivity. Qed.

(** * Further properties of the module and of its callers *)

(** ** The primary threat *)

(** The running choice of [getPrimaryThreat]: either the initial value
    survives and nothing in the list beats it, or the result sits in the
    list, beats the initial value and everything before it, and is not
    beaten by anything after it. *)
Lemma foldl_primary (l : list string) (acc : string) :
  let p := foldl (fun primary current =>
                    if priority_of primary <? priority_of current
                    then current else primary) acc l in
  (p = acc ∧ Forall (fun t => priority_of t ≤ priority_of acc) l)
  ∨ (∃ l1 l2 : list string,
       l = (l1 ++ p :: l2)%list
       ∧ priority_of acc < priority_of p
       ∧ Forall (fun t => priority_of t < priority_of p) l1
       ∧ Forall (fun t => priority_of t ≤ priority_of p) l2).
Proof.
  revert acc. induction l as [|t l IH]; intros acc; cbn zeta.
  - left. by split.
  - cbn [foldl]. destruct (Z.ltb_spec (priority_of acc) (priority_of t)) as [Hlt|Hge].
    + destruct (IH t) as [[Hp Hall] | (l1 & l2 & Hl & Hbeat & H1 & H2)].
      * right. exists [], l. rewrite Hp. repeat split; [done | constructor | done].
      * right. exists (t :: l1), l2. rewrite Hl at 1.
        repeat split; [lia | | done]. constructor; [lia | done].
    + destruct (IH acc) as [[Hp Hall] | (l1 & l2 & Hl & Hbeat & H1 & H2)].
      * left. split; [done|]. constructor; [lia | done].
      * right. exists (t :: l1), l2. rewrite Hl at 1.
        repeat split; [done | | done]. constructor; [lia | done].
Qed.

Lemma getPrimaryThreat_split (r : AlertData.t) :
  (AlertData.getPrimaryThreat r = None ↔ AlertData.threatTypes r = [])
  ∧ ∀ p : string,
      AlertData.getPrimaryThreat r = Some p →
      ∃ l1 l2 : list string,
        AlertData.threatTypes r = (l1 ++ p :: l2)%list
        ∧ Forall (fun t => priority_of t < priority_of p) l1
        ∧ Forall (fun t => priority_of t ≤ priority_of p) l2.
Proof.
  unfold AlertData.getPrimaryThreat.
  destruct (AlertData.threatTypes r) as [|first rest]; [by split|].
  split; [by split|].
  intros p [= <-]. cbn [foldl]. rewrite Z.ltb_irrefl.
  destruct (foldl_primary rest first) as [[Hp Hall] | (l1 & l2 & Hl & Hbeat & H1 & H2)].
  - exists [], rest. cbn zeta in Hp. rewrite Hp. repeat split; [constructor | done].
  - exists (first :: l1), l2. rewrite Hl at 1.
    repeat split; [constructor; [lia | done] | done].
Qed.

(** [getPrimaryThreat] gives [null] exactly on an empty threat list;
    otherwise it gives a member of the list that no member exceeds in
    priority and that every earlier member is strictly below: the first of
    the most severe threats. *)
Theorem getPrimaryThreat_first_maximum (r : AlertData.t) :
  (AlertData.getPrimaryThreat r = None ↔ AlertData.threatTypes r = [])
  ∧ ∀ p : string,
      AlertData.getPrimaryThreat r = Some p →
      ∃ l1 l2 : list string,
        AlertData.threatTypes r = (l1 ++ p :: l2)%list
        ∧ Forall (fun t => priority_of t < priority_of p) l1
        ∧ Forall (fun t => priority_of t ≤ priority_of p) l2.
Proof. exact (getPrimaryThreat_split r). Qed.

Lemma priority_of_own (threat : string) :
  priority_of threat
  = match ThreatMetadata !! threat with Some meta => priority meta | None => 0 end.
Proof.
  unfold priority_of, ThreatMetadata_at.
  destruct (ThreatMetadata !! threat); [done|].
  by destruct (includes Object_prototype_keys threat).
Qed.

Lemma known_priority (threat : string) :
  known threat → 5 ≤ priority_of threat.
Proof.
  rewrite priority_of_own. unfold known. intros [meta Hmeta]. rewrite Hmeta.
  apply ThreatMetadata_priority_range in Hmeta. lia.
Qed.

Lemma unknown_priority (threat : string) :
  ¬ known threat → priority_of threat = 0.
Proof.
  rewrite priority_of_own. unfold known. destruct (ThreatMetadata !! threat); [|done].
  intros []. by eexists.
Qed.

Lemma positive_priority_known (threat : string) :
  0 < priority_of threat → known threat ∧ threat ≠ "".
Proof.
  intros Hpos. assert (known threat) as Hk.
  { unfold known. rewrite priority_of_own in Hpos.
    destruct (ThreatMetadata !! threat); [by eexists | lia]. }
  split; [done|]. intros ->. destruct Hk as [meta Hmeta].
  by rewrite ThreatMetadata_no_empty_key in Hmeta.
Qed.

Lemma known_not_inherited (threat : string) : known threat → ¬ inherited threat.
Proof.
  intros [meta Hmeta] Hin. by rewrite (inherited_not_own threat Hin) in Hmeta.
Qed.

(** With no known threat the primary threat is the first one. *)
Lemma getPrimaryThreat_unknown (r : AlertData.t) (first : string) (rest : list string) :
  Forall (fun t => ¬ known t) (AlertData.threatTypes r) →
  AlertData.threatTypes r = first :: rest →
  AlertData.getPrimaryThreat r = Some first.
Proof.
  intros Hall Hl.
  destruct (getPrimaryThreat_split r) as [Hnone Hsome].
  destruct (AlertData.getPrimaryThreat r) as [p|] eqn:Hp.
  - destruct (Hsome p eq_refl) as (l1 & l2 & Hl' & H1 & _).
    assert (priority_of p = 0) as Hp0.
    { apply unknown_priority. rewrite Forall_forall in Hall. apply Hall.
      rewrite Hl'. apply elem_of_app. right. by left. }
    destruct l1 as [|t l1].
    + rewrite Hl in Hl'. by injection Hl' as -> _.
    + apply Forall_cons in H1 as [Ht _].
      assert (priority_of t = 0) as Ht0.
      { apply unknown_priority. rewrite Forall_forall in Hall. apply Hall.
        rewrite Hl'. by left. }
      lia.
  - rewrite (proj1 Hnone eq_refl) in Hl. discriminate.
Qed.

(** With a level other than [none], a record with at least one known threat
    is painted in the metadata color of its primary threat, which is known.
    A record none of whose threats is known has its first threat for
    primary threat: it is painted by its intensity band when it has no
    threat or the first one names no inherited property, and it gets no
    color at all ([undefined]) when the first one does. *)
Theorem getColor_known_threat (r : AlertData.t) :
  AlertData.alertLevel r ≠ AlertLevel.NONE →
  (Exists known (AlertData.threatTypes r) →
   ∃ (p : string) (meta : ThreatMeta),
     AlertData.getPrimaryThreat r = Some p
     ∧ ThreatMetadata !! p = Some meta
     ∧ AlertData.getColor r = Some (color meta))
  ∧ (Forall (fun t => ¬ known t) (AlertData.threatTypes r) →
     (AlertData.threatTypes r = [] →
      AlertData.getColor r = Some (AlertData.intensityColor (AlertData.intensity r)))
     ∧ ∀ (first : string) (rest : list string),
         AlertData.threatTypes r = first :: rest →
         (¬ inherited first →
          AlertData.getColor r = Some (AlertData.intensityColor (AlertData.intensity r)))
         ∧ (inherited first → AlertData.getColor r = None)).
Proof.
  intros Hlevel. apply String.eqb_neq in Hlevel.
  destruct (getPrimaryThreat_split r) as [Hnone Hsome].
  unfold AlertData.getColor. rewrite Hlevel. split.
  - intros Hex. destruct (AlertData.getPrimaryThreat r) as [p|] eqn:Hp.
    + destruct (Hsome p eq_refl) as (l1 & l2 & Hl & H1 & H2).
      assert (0 < priority_of p) as Hpos.
      { rewrite Hl in Hex. apply Exists_exists in Hex as (t & Hin & Hk).
        apply known_priority in Hk.
        apply elem_of_app in Hin as [Hin | Hin].
        - rewrite Forall_forall in H1. specialize (H1 t Hin). lia.
        - apply elem_of_cons in Hin as [-> | Hin]; [lia|].
          rewrite Forall_forall in H2. specialize (H2 t Hin). lia. }
      apply positive_priority_known in Hpos as [[meta Hmeta] Hne].
      exists p, meta. rewrite (ThreatMetadata_at_own p meta Hmeta).
      assert (truthy p = true) as ->
        by (unfold truthy; by apply negb_true_iff, String.eqb_neq).
      done.
    + rewrite (proj1 Hnone eq_refl) in Hex. by apply Exists_nil in Hex.
  - intros Hall. split.
    + intros Hnil. by rewrite (proj2 Hnone Hnil).
    + intros first rest Hl.
      rewrite (getPrimaryThreat_unknown r first rest Hall Hl).
      assert (ThreatMetadata !! first = None) as Hown.
      { rewrite Hl in Hall. apply Forall_cons in Hall as [Hf _].
        unfold known in Hf. destruct (ThreatMetadata !! first); [|done].
        destruct Hf. by eexists. }
      split.
      * intros Hno. rewrite (ThreatMetadata_at_plain first Hown Hno).
        by destruct (truthy first).
      * intros Hin. rewrite (ThreatMetadata_at_inherited first Hin).
        assert (truthy first = true) as ->; [|done].
        unfold truthy. apply negb_true_iff, String.eqb_neq. intros ->.
        by vm_compute in Hin.
Qed.

(** Drones and an unknown token under level [low]: the color of drones. *)
Lemma getColor_known_threat_witness :
  ∃ (p : string) (meta : ThreatMeta),
    AlertData.getPrimaryThreat
      (AlertData.mk "" "" "" "low" ["sirens"; "drones"] None None
         zero_duration (Num 60) [] true "")
    = Some p
    ∧ ThreatMetadata !! p = Some meta
    ∧ AlertData.getColor
        (AlertData.mk "" "" "" "low" ["sirens"; "drones"] None None
           zero_duration (Num 60) [] true "")
      = Some (color meta).
Proof.
  apply (getColor_known_threat
           (AlertData.mk "" "" "" "low" ["sirens"; "drones"] None None
              zero_duration (Num 60) [] true "")).
  - discriminate.
  - apply Exists_cons_tl, Exists_cons_hd. unfold known.
    exists (mkMeta "drone" "#ff8866" 6 None). vm_compute. reflexivity.
Defined.

(** The token [constructor] under level [high]: no color. *)
Example getColor_constructor :
  AlertData.getColor
    (AlertData.mk "" "" "" "high" ["constructor"] None None
       zero_duration (Num 50) [] true "")
  = None.
Proof. vm_compute. reflexivity. Qed.

(** ** Intensity and the level it maps to *)

Lemma score_sum_member (threat : string) (threats : list string) :
  threat ∈ threats →
  Spec.threatScore threat ≤ foldr Z.add 0 (Spec.threatScore <$> threats).
Proof.
  induction 1 as [t l | t t' l Hin IH]; rewrite fmap_cons; cbn [foldr].
  - pose proof (score_sum_nonneg l). lia.
  - pose proof (threatScore_nonneg t'). lia.
Qed.

Lemma score_sum_submseteq (l1 l2 : list string) :
  l1 ⊆+ l2 →
  foldr Z.add 0 (Spec.threatScore <$> l1) ≤ foldr Z.add 0 (Spec.threatScore <$> l2).
Proof.
  induction 1 as [|t l1 l2 _ IH|t t' l|t l1 l2 _ IH|l1 l2 l3 _ IH1 _ IH2];
    rewrite ?fmap_cons; cbn [foldr]; try lia.
  pose proof (threatScore_nonneg t). lia.
Qed.

Lemma score_sum_unknown (threats : list string) :
  Forall (fun t => ¬ known t) threats →
  foldr Z.add 0 (Spec.threatScore <$> threats) = 0.
Proof.
  induction 1 as [|t l Ht _ IH]; [done|].
  rewrite fmap_cons. cbn [foldr]. rewrite IH.
  unfold Spec.threatScore, known in *.
  destruct (ThreatMetadata !! t); [|done]. destruct Ht. by eexists.
Qed.

Lemma includes_elem_of (l : list string) (x : string) :
  includes l x = true ↔ x ∈ l.
Proof.
  unfold includes. rewrite existsb_exists. split.
  - intros (y & Hin & Heq). apply String.eqb_eq in Heq. subst.
    by apply list_elem_of_In.
  - intros Hin. exists x. split; [by apply list_elem_of_In | apply String.eqb_refl].
Qed.

(** Threats only add, as long as none names an inherited property: if the
    threat list of one record contains, with multiplicity, the threats of
    another, none of them names an inherited property and the durations are
    the same, both intensities are numbers and the larger list never scores
    less. *)
Theorem calculateIntensity_monotone (r r' : AlertData.t) :
  AlertData.threatTypes r ⊆+ AlertData.threatTypes r' →
  AlertData.duration r' = AlertData.duration r →
  Forall (fun t => ¬ inherited t) (AlertData.threatTypes r') →
  ∃ i i' : Z,
    fst (AlertData.calculateIntensity r) = Num i
    ∧ fst (AlertData.calculateIntensity r') = Num i'
    ∧ i ≤ i'.
Proof.
  intros Hsub Hdur Hall'.
  assert (Forall (fun t => ¬ inherited t) (AlertData.threatTypes r)) as Hall.
  { rewrite Forall_forall in Hall' |- *. intros t Hin.
    apply Hall'. by eapply elem_of_submseteq. }
  rewrite (calculateIntensity_unfold r Hall), (calculateIntensity_unfold r' Hall'), Hdur.
  eexists _, _. split; [reflexivity|]. split; [reflexivity|].
  apply score_sum_submseteq in Hsub. lia.
Qed.

(** Drones alone score 60, drones with artillery 100. *)
Lemma calculateIntensity_monotone_witness :
  ∃ i i' : Z,
    fst (AlertData.calculateIntensity
           (AlertData.mk "" "" "" "low" ["drones"] None None
              zero_duration (Num 0) [] true "")) = Num i
    ∧ fst (AlertData.calculateIntensity
             (AlertData.mk "" "" "" "low" ["artillery"; "drones"] None None
                zero_duration (Num 0) [] true "")) = Num i'
    ∧ i ≤ i'.
Proof.
  apply calculateIntensity_monotone; [|reflexivity|].
  - cbn. apply submseteq_cons. reflexivity.
  - cbn. repeat constructor; by vm_compute.
Defined.

Lemma level_of_number (i : Z) :
  (i = 0 → AlertUtils.getAlertLevelFromIntensity (Num i) = AlertLevel.NONE)
  ∧ (0 < i < 20 → AlertUtils.getAlertLevelFromIntensity (Num i) = AlertLevel.LOW)
  ∧ (20 ≤ i < 40 → AlertUtils.getAlertLevelFromIntensity (Num i) = AlertLevel.MEDIUM)
  ∧ (40 ≤ i < 70 → AlertUtils.getAlertLevelFromIntensity (Num i) = AlertLevel.HIGH)
  ∧ (70 ≤ i → AlertUtils.getAlertLevelFromIntensity (Num i) = AlertLevel.CRITICAL).
Proof.
  unfold AlertUtils.getAlertLevelFromIntensity. cbn [JsNum.eqb JsNum.ltb].
  repeat split; intros; repeat case_match; first [done | lia].
Qed.

(** The level of a computed intensity. A token that names an inherited
    property makes the intensity [NaN], which passes every test of
    [getAlertLevelFromIntensity] and comes out CRITICAL. Without such a
    token: one known threat is enough for at least 50 and so for HIGH or
    CRITICAL; ballistic missiles or a nuclear threat give 100 and CRITICAL;
    with no known threat the intensity is the duration bonus alone, the
    level is NONE, LOW or MEDIUM, and it is NONE exactly when there is no
    bonus. *)
Theorem level_of_computed_intensity (r : AlertData.t) :
  (Exists inherited (AlertData.threatTypes r) →
   fst (AlertData.calculateIntensity r) = NaN
   ∧ AlertUtils.getAlertLevelFromIntensity (fst (AlertData.calculateIntensity r))
     = AlertLevel.CRITICAL)
  ∧ (Forall (fun t => ¬ inherited t) (AlertData.threatTypes r) →
     (Exists known (AlertData.threatTypes r) →
      ∃ i : Z,
        fst (AlertData.calculateIntensity r) = Num i
        ∧ 50 ≤ i
        ∧ (AlertUtils.getAlertLevelFromIntensity (Num i) = AlertLevel.HIGH
           ∨ AlertUtils.getAlertLevelFromIntensity (Num i) = AlertLevel.CRITICAL))
     ∧ (includes (AlertData.threatTypes r) ThreatType.BALLISTIC_MISSILES = true
        ∨ includes (AlertData.threatTypes r) ThreatType.NUCLEAR = true →
        fst (AlertData.calculateIntensity r) = Num 100
        ∧ AlertUtils.getAlertLevelFromIntensity (fst (AlertData.calculateIntensity r))
          = AlertLevel.CRITICAL)
     ∧ (Forall (fun t => ¬ known t) (AlertData.threatTypes r) →
        fst (AlertData.calculateIntensity r)
          = Num (Spec.durationBonus (AlertData.duration r))
        ∧ (AlertUtils.getAlertLevelFromIntensity (fst (AlertData.calculateIntensity r))
           = AlertLevel.NONE
           ↔ Spec.durationBonus (AlertData.duration r) = 0)
        ∧ (AlertUtils.getAlertLevelFromIntensity (fst (AlertData.calculateIntensity r))
           = AlertLevel.NONE
           ∨ AlertUtils.getAlertLevelFromIntensity (fst (AlertData.calculateIntensity r))
             = AlertLevel.LOW
           ∨ AlertUtils.getAlertLevelFromIntensity (fst (AlertData.calculateIntensity r))
             = AlertLevel.MEDIUM))).
Proof.
  split.
  { intros Hex. by rewrite (calculateIntensity_NaN r Hex). }
  intros Hall. rewrite (calculateIntensity_unfold r Hall).
  pose proof (score_sum_nonneg (AlertData.threatTypes r)) as Hsum.
  pose proof (durationBonus_range (AlertData.duration r)) as Hbonus.
  split; [|split].
  - intros Hex. apply Exists_exists in Hex as (t & Hin & Hk).
    apply score_sum_member in Hin.
    assert (50 ≤ Spec.threatScore t) as Ht.
    { unfold Spec.threatScore. destruct Hk as [meta Hmeta]. rewrite Hmeta.
      apply ThreatMetadata_priority_range in Hmeta. lia. }
    eexists. split; [reflexivity|]. split; [lia|].
    set (i := Z.min _ 100). assert (50 ≤ i) as Hi by (subst i; lia). clearbody i.
    destruct (level_of_number i) as (_ & _ & _ & Hhigh & Hcrit).
    destruct (Z.lt_ge_cases i 70); [left; apply Hhigh | right; apply Hcrit]; lia.
  - intros Hcrit.
    assert (100 ≤ foldr Z.add 0 (Spec.threatScore <$> AlertData.threatTypes r)) as Hfull.
    { destruct Hcrit as [Hin | Hin]; apply includes_elem_of, score_sum_member in Hin;
        etrans; [| exact Hin | | exact Hin]; by vm_compute. }
    rewrite Z.min_r by lia. done.
  - intros Hunknown. rewrite (score_sum_unknown _ Hunknown).
    rewrite Z.add_0_l, Z.min_l by lia. split; [done|].
    unfold Spec.durationBonus.
    destruct (JsNum.add _ _) as [h|]; [|by split; [|left]].
    repeat case_match; (split; [by split|]); vm_compute; auto.
Qed.

(** ** Durations over time, in minutes and in print *)

(** [calculateDuration] on two valid instants, whatever their order. *)
Lemma calculateDuration_parsed `{Host} (now : Z) (r : AlertData.t)
    (s : string) (start finish : Z) :
  AlertData.startTime r = Some s →
  truthy s = true →
  Date_parse s = Num start →
  AlertData.endInstant now r = Num finish →
  AlertData.calculateDuration now r
  = (let d := mkDuration
                (Num ((finish - start) / MS_PER_DAY))
                (Num (Z.rem (finish - start) MS_PER_DAY / MS_PER_HOUR))
                (Num (Z.rem (finish - start) MS_PER_HOUR / MS_PER_MINUTE)) in
     (d, AlertData.set_duration d r)).
Proof.
  intros Hs Ht Hstart Hfinish. unfold AlertData.calculateDuration.
  by rewrite Hs, Ht, Hstart, Hfinish.
Qed.

Lemma calculateDuration_forward `{Host} (now : Z) (r : AlertData.t)
    (s : string) (start finish : Z) :
  AlertData.startTime r = Some s →
  truthy s = true →
  Date_parse s = Num start →
  AlertData.endInstant now r = Num finish →
  start ≤ finish →
  AlertData.calculateDuration now r
  = (Spec.breakdown (finish - start),
     AlertData.set_duration (Spec.breakdown (finish - start)) r).
Proof.
  intros Hs Ht Hstart Hfinish Hle.
  rewrite (calculateDuration_parsed now r s start finish) by done.
  cbn zeta. unfold Spec.breakdown.
  by rewrite !Z.rem_mod_nonneg by (unfold MS_PER_DAY, MS_PER_HOUR; lia).
Qed.

Lemma breakdown_totalMinutes (ms : Z) :
  0 ≤ ms → totalMinutes (Spec.breakdown ms) = Num (ms / MS_PER_MINUTE).
Proof.
  intros Hms.
  destruct (breakdown_whole_units ms Hms) as (d & h & m & -> & Hd & Hh & Hm & Hlo & Hhi).
  unfold totalMinutes. cbn. f_equal.
  unfold MS_PER_DAY, MS_PER_HOUR, MS_PER_MINUTE in *.
  apply (Z.div_unique ms (1000 * 60) (d * 24 * 60 + h * 60 + m)
           (ms - (1000 * 60) * (d * 24 * 60 + h * 60 + m))); lia.
Qed.

(** From start to end, both valid and in this order, the derived duration
    totals the whole minutes of the span; this is what
    [getTotalMinutes] returns for a history entry that holds it. *)
Theorem getTotalMinutes_of_calculateDuration `{Host} (now : Z) (r : AlertData.t)
    (h : AlertHistoryEntry.t) (s : string) (start finish : Z) :
  AlertData.startTime r = Some s →
  truthy s = true →
  Date_parse s = Num start →
  AlertData.endInstant now r = Num finish →
  start ≤ finish →
  AlertHistoryEntry.duration h = Some (fst (AlertData.calculateDuration now r)) →
  AlertHistoryEntry.getTotalMinutes h = Num ((finish - start) / MS_PER_MINUTE).
Proof.
  intros Hs Ht Hstart Hfinish Hle Hh.
  unfold AlertHistoryEntry.getTotalMinutes. rewrite Hh.
  rewrite (calculateDuration_forward now r s start finish) by done.
  cbn [fst]. apply (breakdown_totalMinutes (finish - start)). lia.
Qed.

(** The forty minutes of [episode], as derived from its own timestamps. *)
Lemma getTotalMinutes_of_calculateDuration_witness :
  AlertHistoryEntry.getTotalMinutes Samples.episode = Num 40.
Proof.
  apply (getTotalMinutes_of_calculateDuration 0
           (AlertData.mk "kyiv" "" "" "high" ["air_raid"]
              (Some "1970-01-01T00:00:00.000Z") (Some "1970-01-01T00:40:00.000Z")
              zero_duration (Num 0) [] false "1970-01-01T00:40:00.000Z")
           Samples.episode "1970-01-01T00:00:00.000Z" 0 2400000);
    first [reflexivity | lia].
Defined.

(** While an alert runs (valid start, no end time) its duration, counted in
    minutes, does not go down as the clock advances past the start. *)
Theorem calculateDuration_monotone `{Host} (now1 now2 : Z) (r : AlertData.t)
    (s : string) (start : Z) :
  AlertData.startTime r = Some s →
  truthy s = true →
  Date_parse s = Num start →
  falsy (AlertData.endTime r) = true →
  start ≤ now1 →
  now1 ≤ now2 →
  ∃ m1 m2 : Z,
    totalMinutes (fst (AlertData.calculateDuration now1 r)) = Num m1
    ∧ totalMinutes (fst (AlertData.calculateDuration now2 r)) = Num m2
    ∧ 0 ≤ m1 ∧ m1 ≤ m2.
Proof.
  intros Hs Ht Hstart Hend H1 H2.
  assert (∀ now, AlertData.endInstant now r = Num now) as Hnow.
  { intros now. unfold AlertData.endInstant, falsy in *.
    destruct (AlertData.endTime r) as [e|]; [|done].
    by destruct (truthy e). }
  exists ((now1 - start) / MS_PER_MINUTE), ((now2 - start) / MS_PER_MINUTE).
  rewrite (calculateDuration_forward now1 r s start now1) by (done || lia).
  rewrite (calculateDuration_forward now2 r s start now2) by (done || lia).
  cbn [fst]. rewrite !breakdown_totalMinutes by lia.
  repeat split.
  - apply Z.div_pos; [lia | done].
  - apply Z.div_le_mono; [done | lia].
Qed.

(** [raid] at one hour and at two hours. *)
Lemma calculateDuration_monotone_witness :
  ∃ m1 m2 : Z,
    totalMinutes (fst (AlertData.calculateDuration 3600000 Samples.raid)) = Num m1
    ∧ totalMinutes (fst (AlertData.calculateDuration 7200000 Samples.raid)) = Num m2
    ∧ 0 ≤ m1 ∧ m1 ≤ m2.
Proof.
  apply (calculateDuration_monotone 3600000 7200000 Samples.raid
           "1970-01-01T00:00:00.000Z" 0); first [reflexivity | lia].
Defined.

(** What the tooltip prints after [calculateDuration], by the length of the
    span from a valid start to a valid end not before it: under an hour the
    minutes alone; from an hour up to a day the hours and the minutes; from
    a day on the days and the hours, the minutes dropped. *)
Theorem getFormattedDuration_by_span `{Host} (now : Z) (r : AlertData.t)
    (s : string) (start finish : Z) :
  AlertData.startTime r = Some s →
  truthy s = true →
  Date_parse s = Num start →
  AlertData.endInstant now r = Num finish →
  start ≤ finish →
  (finish - start < MS_PER_HOUR →
   AlertData.getFormattedDuration (snd (AlertData.calculateDuration now r))
   = pretty ((finish - start) / MS_PER_MINUTE) +:+ " хв.")
  ∧ (MS_PER_HOUR ≤ finish - start < MS_PER_DAY →
     AlertData.getFormattedDuration (snd (AlertData.calculateDuration now r))
     = pretty ((finish - start) / MS_PER_HOUR) +:+ " год. "
       +:+ pretty ((finish - start) mod MS_PER_HOUR / MS_PER_MINUTE) +:+ " хв.")
  ∧ (MS_PER_DAY ≤ finish - start →
     AlertData.getFormattedDuration (snd (AlertData.calculateDuration now r))
     = pretty ((finish - start) / MS_PER_DAY) +:+ " д. "
       +:+ pretty ((finish - start) mod MS_PER_DAY / MS_PER_HOUR) +:+ " год.").
Proof.
  intros Hs Ht Hstart Hfinish Hle.
  rewrite (calculateDuration_forward now r s start finish) by done.
  set (span := finish - start). assert (0 ≤ span) as Hspan by (subst span; lia).
  clearbody span.
  unfold AlertData.getFormattedDuration, Spec.breakdown.
  cbn [snd AlertData.duration AlertData.set_duration days hours minutes
       JsNum.gtb JsNum.toString].
  unfold MS_PER_DAY, MS_PER_HOUR, MS_PER_MINUTE.
  change (1000 * 60 * 60 * 24) with 86400000.
  change (1000 * 60 * 60) with 3600000.
  change (1000 * 60) with 60000.
  split; [|split].
  - intros Hlt.
    rewrite (Z.div_small span 86400000), (Z.mod_small span 86400000) by lia.
    rewrite (Z.div_small span 3600000), (Z.mod_small span 3600000) by lia.
    reflexivity.
  - intros [Hge Hlt].
    rewrite (Z.div_small span 86400000), (Z.mod_small span 86400000) by lia.
    assert (0 < span / 3600000) as Hh by (apply Z.div_str_pos; lia).
    apply Z.ltb_lt in Hh. rewrite Hh. reflexivity.
  - intros Hge.
    assert (0 < span / 86400000) as Hd by (apply Z.div_str_pos; lia).
    apply Z.ltb_lt in Hd. rewrite Hd. reflexivity.
Qed.

(** [raid] after two hours reads two hours and no minutes. *)
Lemma getFormattedDuration_by_span_witness :
  AlertData.getFormattedDuration
    (snd (AlertData.calculateDuration 7200000 Samples.raid))
  = "2 год. 0 хв.".
Proof.
  refine (proj1 (proj2 (getFormattedDuration_by_span 7200000 Samples.raid
                          "1970-01-01T00:00:00.000Z" 0 7200000 _ _ _ _ _)) _);
    first [reflexivity | lia | (vm_compute; split; congruence)].
Defined.

(** What the tooltip prints in the edge cases. After [calculateDuration]
    with a set but unparsable start time it prints [NaN] minutes. With
    valid instants and the end before the start it prints minutes only, a
    number that is zero or negative, whatever the days and hours are. *)
Theorem getFormattedDuration_edge `{Host} (now : Z) (r : AlertData.t) (s : string) :
  AlertData.startTime r = Some s →
  truthy s = true →
  (Date_parse s = NaN →
   AlertData.getFormattedDuration (snd (AlertData.calculateDuration now r))
   = "NaN хв.")
  ∧ (∀ start finish : Z,
       Date_parse s = Num start →
       AlertData.endInstant now r = Num finish →
       finish < start →
       AlertData.getFormattedDuration (snd (AlertData.calculateDuration now r))
       = pretty (Z.rem (finish - start) MS_PER_HOUR / MS_PER_MINUTE) +:+ " хв."
       ∧ Z.rem (finish - start) MS_PER_HOUR / MS_PER_MINUTE ≤ 0).
Proof.
  intros Hs Ht. split.
  - intros Hnan. unfold AlertData.calculateDuration. rewrite Hs, Ht, Hnan. cbn.
    by destruct (AlertData.endInstant now r).
  - intros start finish Hstart Hfinish Hlt.
    rewrite (calculateDuration_parsed now r s start finish) by done.
    set (span := finish - start). assert (span < 0) as Hspan by (subst span; lia).
    clearbody span.
    unfold AlertData.getFormattedDuration.
    cbn [snd AlertData.duration AlertData.set_duration days hours minutes
         JsNum.gtb JsNum.toString].
    unfold MS_PER_DAY, MS_PER_HOUR, MS_PER_MINUTE.
    change (1000 * 60 * 60 * 24) with 86400000.
    change (1000 * 60 * 60) with 3600000.
    change (1000 * 60) with 60000.
    assert (span / 86400000 < 0) as Hd by (apply Z.div_lt_upper_bound; lia).
    pose proof (Z.rem_nonpos span 86400000 ltac:(lia) ltac:(lia)) as Hr.
    pose proof (Z.rem_nonpos span 3600000 ltac:(lia) ltac:(lia)) as Hr'.
    assert (Z.rem span 86400000 / 3600000 ≤ 0) as Hh.
    { apply Z.lt_succ_r, Z.div_lt_upper_bound; lia. }
    assert (Z.rem span 3600000 / 60000 ≤ 0) as Hm.
    { apply Z.lt_succ_r, Z.div_lt_upper_bound; lia. }
    split; [|done].
    destruct (Z.ltb_spec 0 (span / 86400000)); [lia|].
    destruct (Z.ltb_spec 0 (Z.rem span 86400000 / 3600000)); [lia|].
    reflexivity.
Qed.

(** A whole day backwards prints as zero minutes. *)
Lemma getFormattedDuration_edge_witness :
  AlertData.getFormattedDuration
    (snd (AlertData.calculateDuration 0
            (AlertData.mk "kyiv" "" "" "high" ["air_raid"]
               (Some "1970-01-02T00:00:00.000Z") (Some "1970-01-01T00:00:00.000Z")
               zero_duration (Num 0) [] false "1970-01-02T00:00:00.000Z")))
  = "0 хв.".
Proof.
  refine (proj1 (proj2 (getFormattedDuration_edge 0
                          (AlertData.mk "kyiv" "" "" "high" ["air_raid"]
                             (Some "1970-01-02T00:00:00.000Z")
                             (Some "1970-01-01T00:00:00.000Z")
                             zero_duration (Num 0) [] false "1970-01-02T00:00:00.000Z")
                          "1970-01-02T00:00:00.000Z" _ _)
                   86400000 0 _ _ _));
    first [reflexivity | lia].
Defined.

(** ** Immediate attention *)

(** An alert requires immediate attention exactly when it is critical or
    carries cruise missiles (the test for ballistic missiles adds nothing
    to [isCritical]); and when it does so without the level [critical], its
    computed intensity maps to the level CRITICAL: it is a number of 90 or
    more when no threat token names an inherited property, and [NaN], which
    maps to CRITICAL too, when one does. *)
Theorem requiresImmediateAttention_characterised (alert : AlertData.t) :
  (AlertUtils.requiresImmediateAttention alert = true
   ↔ AlertData.isCritical alert = true
     ∨ ThreatType.CRUISE_MISSILES ∈ AlertData.threatTypes alert)
  ∧ (AlertUtils.requiresImmediateAttention alert = true →
     AlertData.alertLevel alert ≠ AlertLevel.CRITICAL →
     AlertUtils.getAlertLevelFromIntensity (fst (AlertData.calculateIntensity alert))
       = AlertLevel.CRITICAL
     ∧ (Forall (fun t => ¬ inherited t) (AlertData.threatTypes alert) →
        ∃ i : Z, fst (AlertData.calculateIntensity alert) = Num i ∧ 90 ≤ i)
     ∧ (Exists inherited (AlertData.threatTypes alert) →
        fst (AlertData.calculateIntensity alert) = NaN)).
Proof.
  assert (AlertUtils.requiresImmediateAttention alert = true
          ↔ AlertData.isCritical alert = true
            ∨ ThreatType.CRUISE_MISSILES ∈ AlertData.threatTypes alert) as Hiff.
  { unfold AlertUtils.requiresImmediateAttention, AlertData.isCritical.
    rewrite <- includes_elem_of.
    destruct (String.eqb _ _), (includes _ ThreatType.BALLISTIC_MISSILES),
      (includes _ ThreatType.NUCLEAR), (includes _ ThreatType.CRUISE_MISSILES);
      cbn; intuition (auto; discriminate). }
  split; [exact Hiff|].
  intros Hreq Hlevel. apply Hiff in Hreq.
  assert (∃ t, t ∈ AlertData.threatTypes alert ∧ 90 ≤ Spec.threatScore t) as (t & Hin & Ht).
  { destruct Hreq as [Hcrit | Hcruise].
    - unfold AlertData.isCritical in Hcrit.
      apply String.eqb_neq in Hlevel. rewrite Hlevel in Hcrit. cbn in Hcrit.
      apply orb_true_iff in Hcrit as [Hin | Hin]; apply includes_elem_of in Hin;
        eexists; (split; [exact Hin | by vm_compute]).
    - eexists; split; [exact Hcruise | by vm_compute]. }
  apply score_sum_member in Hin.
  pose proof (durationBonus_range (AlertData.duration alert)) as Hbonus.
  assert (Forall (fun t => ¬ inherited t) (AlertData.threatTypes alert) →
          ∃ i : Z, fst (AlertData.calculateIntensity alert) = Num i ∧ 90 ≤ i) as Hnum.
  { intros Hall. rewrite (calculateIntensity_unfold alert Hall).
    eexists. split; [reflexivity | lia]. }
  split; [|split; [exact Hnum | apply calculateIntensity_NaN]].
  destruct (decide (Exists inherited (AlertData.threatTypes alert))) as [Hex | Hno].
  - by rewrite (calculateIntensity_NaN alert Hex).
  - apply not_Exists_Forall in Hno; [|apply _].
    destruct (Hnum Hno) as (i & -> & Hi).
    apply level_of_number. lia.
Qed.

(** ** More on merging *)

(** Copying a normalised record with the constructor changes nothing but
    an intensity that is not a number, which becomes 0. *)
Lemma constructor_props `{Host} (now : Z) (r : AlertData.t) :
  normalised r →
  AlertData.constructor now (AlertData.props r)
  = AlertData.set_intensity (JsNum.or_zero (AlertData.intensity r)) r.
Proof.
  intros (Hlevel & Hstart & Hend & Hupdated).
  unfold AlertData.constructor, AlertData.props, AlertData.set_intensity.
  destruct r as [rid rname rnameEn level threats st et dur int subs act upd].
  cbn -[str_or str_or_null truthy] in *.
  rewrite !str_or_empty, (str_or_truthy level), (str_or_truthy upd) by done.
  by rewrite !str_or_null_normal by done.
Qed.

(** Deriving duration and then intensity changes these two fields only. *)
Lemma recalculate_form `{Host} (now : Z) (m : AlertData.t) :
  snd (AlertData.calculateIntensity (snd (AlertData.calculateDuration now m)))
  = AlertData.set_intensity
      (fst (AlertData.calculateIntensity (snd (AlertData.calculateDuration now m))))
      (AlertData.set_duration
         (AlertData.duration (snd (AlertData.calculateDuration now m))) m).
Proof. by destruct (calculateDuration_frame now m) as [d ->]. Qed.

(** Apart from duration and intensity, a merge into a normalised record
    gives every field the value the update carries for it, and the existing
    record's value where the update carries none. *)
Theorem mergeAlertData_fields `{Host} (now : Z)
    (existing : AlertData.t) (update : Raw.t) :
  normalised existing →
  AlertData.regionName (AlertUtils.mergeAlertData now existing update)
    = default (AlertData.regionName existing) (Raw.regionName update)
  ∧ AlertData.regionNameEn (AlertUtils.mergeAlertData now existing update)
    = default (AlertData.regionNameEn existing) (Raw.regionNameEn update)
  ∧ AlertData.alertLevel (AlertUtils.mergeAlertData now existing update)
    = default (AlertData.alertLevel existing) (Raw.alertLevel update)
  ∧ AlertData.threatTypes (AlertUtils.mergeAlertData now existing update)
    = default (AlertData.threatTypes existing) (Raw.threatTypes update)
  ∧ AlertData.startTime (AlertUtils.mergeAlertData now existing update)
    = from_option Some (AlertData.startTime existing) (Raw.startTime update)
  ∧ AlertData.endTime (AlertUtils.mergeAlertData now existing update)
    = from_option Some (AlertData.endTime existing) (Raw.endTime update)
  ∧ AlertData.subRegions (AlertUtils.mergeAlertData now existing update)
    = default (AlertData.subRegions existing) (Raw.subRegions update)
  ∧ AlertData.lastUpdated (AlertUtils.mergeAlertData now existing update)
    = default (AlertData.lastUpdated existing) (Raw.lastUpdated update).
Proof.
  intros Hnorm. unfold AlertUtils.mergeAlertData. cbn zeta.
  rewrite (constructor_props now existing Hnorm), recalculate_form.
  repeat split; cbn; by destruct update; cbn; case_match.
Qed.

(** The update that ends [raid] changes threats and end time only. *)
Lemma mergeAlertData_fields_witness :
  AlertData.regionName (AlertUtils.mergeAlertData 7200000 Samples.raid Samples.update_end)
    = ""
  ∧ AlertData.regionNameEn (AlertUtils.mergeAlertData 7200000 Samples.raid Samples.update_end)
    = ""
  ∧ AlertData.alertLevel (AlertUtils.mergeAlertData 7200000 Samples.raid Samples.update_end)
    = "high"
  ∧ AlertData.threatTypes (AlertUtils.mergeAlertData 7200000 Samples.raid Samples.update_end)
    = ["drones"]
  ∧ AlertData.startTime (AlertUtils.mergeAlertData 7200000 Samples.raid Samples.update_end)
    = Some "1970-01-01T00:00:00.000Z"
  ∧ AlertData.endTime (AlertUtils.mergeAlertData 7200000 Samples.raid Samples.update_end)
    = Some "1970-01-01T00:30:00.000Z"
  ∧ AlertData.subRegions (AlertUtils.mergeAlertData 7200000 Samples.raid Samples.update_end)
    = []
  ∧ AlertData.lastUpdated (AlertUtils.mergeAlertData 7200000 Samples.raid Samples.update_end)
    = "1970-01-01T01:00:00.000Z".
Proof.
  apply (mergeAlertData_fields 7200000 Samples.raid Samples.update_end).
  repeat split; first [reflexivity | discriminate].
Defined.

(** After any merge the derived fields are consistent with the others,
    whatever duration or intensity the update carried: the intensity is the
    one [calculateIntensity] gives on the merged record; when no threat
    token of the merged record names an inherited property it is the number
    the threats and the duration of the merged record give, within 0 and
    100, and when one does it is [NaN]; with a start time the duration is
    the one [calculateDuration] gives at that instant, and without one it
    is the update's duration if it carries one and the existing record's
    otherwise. *)
Theorem mergeAlertData_derived `{Host} (now : Z)
    (existing : AlertData.t) (update : Raw.t) :
  AlertData.intensity (AlertUtils.mergeAlertData now existing update)
    = fst (AlertData.calculateIntensity (AlertUtils.mergeAlertData now existing update))
  ∧ (Forall (fun t => ¬ inherited t)
       (AlertData.threatTypes (AlertUtils.mergeAlertData now existing update)) →
     ∃ i : Z,
       AlertData.intensity (AlertUtils.mergeAlertData now existing update) = Num i
       ∧ i = Spec.computeIntensity
               (AlertData.threatTypes (AlertUtils.mergeAlertData now existing update))
               (AlertData.duration (AlertUtils.mergeAlertData now existing update))
       ∧ 0 ≤ i ≤ 100)
  ∧ (Exists inherited
       (AlertData.threatTypes (AlertUtils.mergeAlertData now existing update)) →
     AlertData.intensity (AlertUtils.mergeAlertData now existing update) = NaN)
  ∧ (falsy (AlertData.startTime (AlertUtils.mergeAlertData now existing update)) = false →
     AlertData.duration (AlertUtils.mergeAlertData now existing update)
     = fst (AlertData.calculateDuration now
              (AlertUtils.mergeAlertData now existing update)))
  ∧ (falsy (AlertData.startTime (AlertUtils.mergeAlertData now existing update)) = true →
     AlertData.duration (AlertUtils.mergeAlertData now existing update)
     = default (AlertData.duration existing) (Raw.duration update)).
Proof.
  unfold AlertUtils.mergeAlertData. cbn zeta.
  set (m := AlertUtils.assign update _).
  rewrite recalculate_form.
  set (d := AlertData.duration (snd (AlertData.calculateDuration now m))).
  assert (AlertData.duration m = default (AlertData.duration existing) (Raw.duration update))
    as Hmd by reflexivity.
  assert (fst (AlertData.calculateIntensity (snd (AlertData.calculateDuration now m)))
          = fst (AlertData.calculateIntensity (AlertData.set_duration d m))) as ->.
  { by rewrite (calculateDuration_snd now m). }
  set (m' := AlertData.set_duration d m).
  pose proof (calculateIntensity_unfold m') as Hi.
  pose proof (calculateIntensity_NaN m') as Hn.
  pose proof (score_sum_nonneg (AlertData.threatTypes m')) as Hsum.
  pose proof (durationBonus_range (AlertData.duration m')) as Hbonus.
  assert (fst (AlertData.calculateIntensity
                 (AlertData.set_intensity (fst (AlertData.calculateIntensity m')) m'))
          = fst (AlertData.calculateIntensity m')) as -> by reflexivity.
  assert (AlertData.intensity
            (AlertData.set_intensity (fst (AlertData.calculateIntensity m')) m')
          = fst (AlertData.calculateIntensity m')) as -> by reflexivity.
  assert (AlertData.threatTypes
            (AlertData.set_intensity (fst (AlertData.calculateIntensity m')) m')
          = AlertData.threatTypes m') as -> by reflexivity.
  assert (AlertData.duration
            (AlertData.set_intensity (fst (AlertData.calculateIntensity m')) m')
          = d) as -> by reflexivity.
  assert (AlertData.startTime
            (AlertData.set_intensity (fst (AlertData.calculateIntensity m')) m')
          = AlertData.startTime m) as -> by reflexivity.
  assert (AlertData.duration m' = d) as Hd' by reflexivity. rewrite Hd' in *.
  split; [done|split; [|split; [exact Hn|split]]].
  - intros Hall. rewrite (Hi Hall). eexists. split; [reflexivity|].
    unfold Spec.computeIntensity, Spec.clamp. lia.
  - intros Hstart. subst d. unfold AlertData.calculateDuration at 2.
    unfold falsy in Hstart. cbn [AlertData.startTime AlertData.set_intensity].
    change (AlertData.startTime m') with (AlertData.startTime m).
    unfold AlertData.calculateDuration.
    destruct (AlertData.startTime m) as [s|]; [|done].
    apply negb_false_iff in Hstart. rewrite Hstart. reflexivity.
  - intros Hstart. subst d. by rewrite (calculateDuration_no_start now m Hstart).
Qed.

(** ** Processing and reloading *)

Lemma constructor_settled `{Host} (now : Z) (data : Raw.t) (d : Duration) (i : num) :
  AlertData.constructor now
    (AlertData.toJSON
       (AlertData.set_intensity i
          (AlertData.set_duration d (AlertData.constructor now data))))
  = AlertData.set_intensity (JsNum.or_zero i)
      (AlertData.set_duration d (AlertData.constructor now data)).
Proof.
  destruct data. unfold AlertData.constructor, AlertData.toJSON,
    AlertData.set_intensity, AlertData.set_duration.
  cbn -[str_or str_or_null truthy].
  by rewrite !str_or_idem, !str_or_null_idem.
Qed.

Lemma assign_empty (m : AlertData.t) : AlertUtils.assign Raw.empty m = m.
Proof. by destruct m. Qed.

(** A processed record is a fixed point of the processing: taking its
    snapshot and processing that at the same instant gives the record back,
    and so does merging an empty update into it. *)
Theorem processAlert_reload `{Host} (now : Z) (data : Raw.t) :
  UkraineMap.processAlert now (AlertData.toJSON (UkraineMap.processAlert now data))
  = UkraineMap.processAlert now data
  ∧ AlertUtils.mergeAlertData now (UkraineMap.processAlert now data) Raw.empty
    = UkraineMap.processAlert now data.
Proof.
  assert (UkraineMap.processAlert now
            (AlertData.toJSON (UkraineMap.processAlert now data))
          = UkraineMap.processAlert now data) as Hreload.
  { unfold UkraineMap.processAlert. cbn zeta.
    set (r0 := AlertData.constructor now data).
    rewrite (recalculate_form now r0).
    set (D := AlertData.duration (snd (AlertData.calculateDuration now r0))).
    set (I := fst (AlertData.calculateIntensity (snd (AlertData.calculateDuration now r0)))).
    subst r0. rewrite constructor_settled.
    set (r0 := AlertData.constructor now data) in *.
    set (r1 := AlertData.set_intensity (JsNum.or_zero I) (AlertData.set_duration D r0)).
    assert (AlertData.duration (snd (AlertData.calculateDuration now r1)) = D) as HD.
    { subst D. apply calculateDuration_duration_ext; [done..|].
      intros Hfalsy. cbn. by apply calculateDuration_no_start. }
    assert (fst (AlertData.calculateIntensity (snd (AlertData.calculateDuration now r1)))
            = I) as HI.
    { subst I. apply calculateIntensity_fst_ext.
      - by destruct (calculateDuration_frame now r1) as [d1 ->],
          (calculateDuration_frame now r0) as [d0 ->].
      - by rewrite HD. }
    rewrite (recalculate_form now r1), HD, HI.
    subst r1. by destruct r0. }
  split; [exact Hreload|].
  rewrite <- Hreload at 2.
  unfold AlertUtils.mergeAlertData, UkraineMap.processAlert. cbn zeta.
  by rewrite assign_empty.
Qed.

(** [raid] is what processing its payload at one hour gives, and
    processing its snapshot again at that hour gives it back. *)
Example processAlert_raid :
  UkraineMap.processAlert 3600000 Samples.payload_raid = Samples.raid
  ∧ UkraineMap.processAlert 3600000 (AlertData.toJSON Samples.raid) = Samples.raid.
Proof. split; vm_compute; reflexivity. Qed.

(** ** Merging two updates in a row *)

Lemma str_or_some_ne (s d : string) : Some s ≠ Some "" → str_or (Some s) d = s.
Proof.
  intros Hne. apply str_or_truthy. unfold truthy.
  apply negb_true_iff, String.eqb_neq. congruence.
Qed.

(** Two merges in a row, at one instant, amount to one merge of the two
    updates laid over each other, the later one winning, provided neither
    update carries an empty string for a level or a timestamp. *)
Theorem mergeAlertData_compose `{Host} (now : Z)
    (r : AlertData.t) (u1 u2 : Raw.t) :
  no_empty_string u1 →
  no_empty_string u2 →
  AlertUtils.mergeAlertData now (AlertUtils.mergeAlertData now r u1) u2
  = AlertUtils.mergeAlertData now r (overlay u1 u2).
Proof.
  intros (Hl1 & Hs1 & He1 & Hu1) (Hl2 & Hs2 & He2 & Hu2).
  unfold AlertUtils.mergeAlertData. cbn zeta.
  set (m0 := AlertUtils.assign u1 (AlertData.constructor now (AlertData.props r))).
  set (m1 := snd (AlertData.calculateIntensity (snd (AlertData.calculateDuration now m0)))).
  set (m0' := AlertUtils.assign u2 (AlertData.constructor now (AlertData.props m1))).
  set (n0 := AlertUtils.assign (overlay u1 u2)
               (AlertData.constructor now (AlertData.props r))).
  assert (AlertData.duration m1
          = AlertData.duration (snd (AlertData.calculateDuration now m0))) as Hm1d
    by reflexivity.
  assert (∀ d i, AlertData.set_intensity i (AlertData.set_duration d m0')
               = AlertData.set_intensity i (AlertData.set_duration d n0)) as Hframe.
  { intros d i. subst m0' n0 m1. rewrite (calculateDuration_snd now m0).
    subst m0. destruct r, u1, u2.
    unfold AlertData.set_intensity, AlertData.set_duration, overlay.
    cbn -[str_or str_or_null truthy] in *.
    f_equal;
      repeat match goal with
             | |- context [default _ ?o] =>
               is_var o; destruct o; cbn -[str_or str_or_null truthy]
             | |- context [from_option _ _ ?o] =>
               is_var o; destruct o; cbn -[str_or str_or_null truthy]
             | |- context [match ?o with Some _ => _ | None => _ end] =>
               is_var o; destruct o; cbn -[str_or str_or_null truthy]
             end;
      rewrite ?str_or_idem, ?str_or_null_idem, ?str_or_empty;
      rewrite ?str_or_some_ne, ?str_or_null_normal by done;
      reflexivity. }
  assert (AlertData.startTime m0' = AlertData.startTime n0
          ∧ AlertData.endTime m0' = AlertData.endTime n0
          ∧ AlertData.threatTypes m0' = AlertData.threatTypes n0) as (Hs & He & Ht).
  { pose proof (Hframe zero_duration (Num 0)) as Heq.
    repeat split.
    - by apply (f_equal AlertData.startTime) in Heq.
    - by apply (f_equal AlertData.endTime) in Heq.
    - by apply (f_equal AlertData.threatTypes) in Heq. }
  assert (AlertData.duration (snd (AlertData.calculateDuration now m0'))
          = AlertData.duration (snd (AlertData.calculateDuration now n0))) as Hd.
  { apply calculateDuration_duration_ext; [done..|].
    intros Hfalsy.
    assert (AlertData.duration m0' = default (AlertData.duration m1) (Raw.duration u2))
      as -> by reflexivity.
    assert (AlertData.duration n0
            = default (AlertData.duration r)
                (from_option Some (Raw.duration u1) (Raw.duration u2)))
      as -> by reflexivity.
    destruct (Raw.duration u2) as [d2|]; [done|]. cbn [default from_option].
    assert (AlertData.startTime n0
            = match from_option Some (Raw.startTime u1) (Raw.startTime u2) with
              | Some s => Some s
              | None => AlertData.startTime
                          (AlertData.constructor now (AlertData.props r))
              end) as Hn0 by reflexivity.
    assert (AlertData.startTime m0
            = match Raw.startTime u1 with
              | Some s => Some s
              | None => AlertData.startTime
                          (AlertData.constructor now (AlertData.props r))
              end) as Hm0 by reflexivity.
    assert (falsy (AlertData.startTime m0) = true) as Hfalsy0.
    { rewrite Hn0 in Hfalsy. rewrite Hm0.
      destruct (Raw.startTime u2) as [s2|]; [|exact Hfalsy].
      cbn in Hfalsy. apply negb_true_iff, negb_false_iff, String.eqb_eq in Hfalsy.
      by subst s2. }
    rewrite Hm1d, (calculateDuration_no_start now m0 Hfalsy0).
    reflexivity. }
  pose proof (calculateDuration_snd now n0) as E0.
  pose proof (calculateDuration_snd now m0') as E0'. rewrite Hd in E0'.
  set (d := AlertData.duration (snd (AlertData.calculateDuration now n0))) in *.
  assert (fst (AlertData.calculateIntensity (AlertData.set_duration d m0'))
          = fst (AlertData.calculateIntensity (AlertData.set_duration d n0))) as Hi
    by (by apply calculateIntensity_fst_ext).
  rewrite E0', E0.
  change (snd (AlertData.calculateIntensity (AlertData.set_duration d m0')))
    with (AlertData.set_intensity
            (fst (AlertData.calculateIntensity (AlertData.set_duration d m0')))
            (AlertData.set_duration d m0')).
  change (snd (AlertData.calculateIntensity (AlertData.set_duration d n0)))
    with (AlertData.set_intensity
            (fst (AlertData.calculateIntensity (AlertData.set_duration d n0)))
            (AlertData.set_duration d n0)).
  rewrite Hi. apply Hframe.
Qed.

(** First the end of [raid], then a change of region, in one merge. *)
Lemma mergeAlertData_compose_witness :
  AlertUtils.mergeAlertData 7200000
    (AlertUtils.mergeAlertData 7200000 Samples.raid Samples.update_end)
    Samples.update_region
  = AlertUtils.mergeAlertData 7200000 Samples.raid
      (overlay Samples.update_end Samples.update_region).
Proof.
  apply mergeAlertData_compose; repeat split; discriminate.
Defined.

(** ** The critical alerts of the map *)

Lemma insert_byIntensity_perm (x : AlertData.t) (l : list AlertData.t) :
  JsArray.insert UkraineMap.byIntensity x l ≡ₚ x :: l.
Proof.
  induction l as [|y l IH]; [done|]. cbn [JsArray.insert].
  case_match; [|done]. rewrite IH. apply Permutation_swap.
Qed.

Lemma sort_byIntensity_perm (l : list AlertData.t) :
  JsArray.sort UkraineMap.byIntensity l ≡ₚ l.
Proof.
  induction l as [|x l IH]; [done|]. cbn [JsArray.sort].
  by rewrite insert_byIntensity_perm, IH.
Qed.

Lemma SortCompare_byIntensity (x y : AlertData.t) :
  (0 <? JsArray.SortCompare UkraineMap.byIntensity x y) = true
  ↔ JsNum.lt (AlertData.intensity x) (AlertData.intensity y).
Proof.
  unfold JsArray.SortCompare, UkraineMap.byIntensity.
  destruct (AlertData.intensity x), (AlertData.intensity y); cbn;
    rewrite ?Z.ltb_lt; first [lia | intuition (auto; discriminate)].
Qed.

(** Among numbers, inserting keeps a descending list descending. *)
Lemma insert_byIntensity_sorted (x : AlertData.t) (l : list AlertData.t) :
  Forall (fun a => AlertData.intensity a ≠ NaN) (x :: l) →
  StronglySorted (fun a b => JsNum.le (AlertData.intensity b) (AlertData.intensity a)) l →
  StronglySorted (fun a b => JsNum.le (AlertData.intensity b) (AlertData.intensity a))
                 (JsArray.insert UkraineMap.byIntensity x l).
Proof.
  intros Hnum. apply Forall_cons_1 in Hnum as [Hx Hnum].
  induction l as [|y l IH]; intros Hsorted; cbn [JsArray.insert].
  - repeat constructor.
  - apply Forall_cons_1 in Hnum as [Hy' Hnum].
    apply StronglySorted_cons in Hsorted as [Hy Hl].
    destruct (0 <? JsArray.SortCompare UkraineMap.byIntensity x y) eqn:Hcmp.
    + apply SortCompare_byIntensity in Hcmp.
      apply StronglySorted_cons. split; [|by apply IH].
      rewrite insert_byIntensity_perm. constructor; [|done].
      destruct (AlertData.intensity x), (AlertData.intensity y); cbn in *; first [done | lia].
    + assert (¬ JsNum.lt (AlertData.intensity x) (AlertData.intensity y)) as Hge.
      { intros Hlt. apply SortCompare_byIntensity in Hlt. congruence. }
      apply StronglySorted_cons. split; [|by apply StronglySorted_cons].
      constructor.
      * destruct (AlertData.intensity x), (AlertData.intensity y); cbn in *;
          first [done | lia].
      * eapply Forall_impl; [exact Hy|]. intros z Hz. cbn in *.
        destruct (AlertData.intensity x), (AlertData.intensity y),
          (AlertData.intensity z); cbn in *; first [done | lia].
Qed.

Lemma insert_byIntensity_stable (k : num) (x : AlertData.t) (l : list AlertData.t) :
  filter (fun a => AlertData.intensity a = k) (JsArray.insert UkraineMap.byIntensity x l)
  = filter (fun a => AlertData.intensity a = k) (x :: l).
Proof.
  induction l as [|y l IH]; [done|]. cbn [JsArray.insert].
  destruct (0 <? JsArray.SortCompare UkraineMap.byIntensity x y) eqn:Hcmp; [|done].
  apply SortCompare_byIntensity in Hcmp.
  rewrite (filter_cons _ y), IH, !(filter_cons _ x), (filter_cons _ y).
  repeat case_decide; try done.
  destruct (AlertData.intensity x), (AlertData.intensity y); subst; cbn in *;
    first [done | simplify_eq; lia].
Qed.

Lemma criticalAlerts_perm (values : list AlertData.t) :
  UkraineMap.criticalAlerts values
  ≡ₚ filter (fun a => AlertData.isActive a && AlertData.isCritical a) values.
Proof. apply sort_byIntensity_perm. Qed.

Lemma criticalAlerts_descending (values : list AlertData.t) :
  Forall (fun a => AlertData.intensity a ≠ NaN)
         (filter (fun a => AlertData.isActive a && AlertData.isCritical a) values) →
  StronglySorted (fun a b => JsNum.le (AlertData.intensity b) (AlertData.intensity a))
                 (UkraineMap.criticalAlerts values).
Proof.
  unfold UkraineMap.criticalAlerts. induction (filter _ values) as [|x l IH]; intros Hnum.
  - constructor.
  - cbn [JsArray.sort]. apply insert_byIntensity_sorted.
    + by rewrite sort_byIntensity_perm.
    + apply IH. by apply Forall_cons_1 in Hnum as [_ Hl].
Qed.

Lemma active_critical_count (values : list AlertData.t) :
  (List.length (filter (fun a => AlertData.isActive a && AlertData.isCritical a) values)
   ≤ List.length (filter (fun a => AlertData.isActive a) values))%nat.
Proof.
  induction values as [|a l IH]; [done|].
  rewrite !(filter_cons _ a).
  destruct (AlertData.isActive a), (AlertData.isCritical a);
    repeat case_decide; cbn in *; first [lia | tauto].
Qed.

(** The critical alerts are exactly the active critical records among the
    processed ones, each as often as it occurs; when the intensity of each
    of them is a number, they are ordered by intensity from the highest
    down, and records of equal intensity keep the order in which the engine
    enumerated them. *)
Theorem criticalAlerts_sorted (values : list AlertData.t) :
  UkraineMap.criticalAlerts values
    ≡ₚ filter (fun a => AlertData.isActive a && AlertData.isCritical a) values
  ∧ (∀ a : AlertData.t,
       a ∈ UkraineMap.criticalAlerts values
       ↔ a ∈ values ∧ AlertData.isActive a = true ∧ AlertData.isCritical a = true)
  ∧ (Forall (fun a => AlertData.intensity a ≠ NaN)
            (filter (fun a => AlertData.isActive a && AlertData.isCritical a) values) →
     StronglySorted (fun a b => JsNum.le (AlertData.intensity b) (AlertData.intensity a))
                    (UkraineMap.criticalAlerts values)
     ∧ ∀ k : Z,
         filter (fun a => AlertData.intensity a = Num k) (UkraineMap.criticalAlerts values)
         = filter (fun a => AlertData.intensity a = Num k)
             (filter (fun a => AlertData.isActive a && AlertData.isCritical a) values)).
Proof.
  split; [apply criticalAlerts_perm|]. split.
  - intros a. rewrite criticalAlerts_perm, list_elem_of_filter.
    destruct (AlertData.isActive a), (AlertData.isCritical a); cbn;
      intuition (auto; discriminate).
  - intros Hnum. split; [by apply criticalAlerts_descending|].
    intros k. unfold UkraineMap.criticalAlerts. clear Hnum.
    induction (filter _ values) as [|x l IH]; [done|].
    cbn [JsArray.sort]. rewrite insert_byIntensity_stable, !(filter_cons _ x), IH.
    done.
Qed.

(** Three active critical records whose threats are drones, an inherited
    name and an air raid have the intensities 60, [NaN] and 100 once
    processed.  The comparator gives [NaN] on either pair with the second
    record, and the insertion sort leaves the three in that order, the
    record of intensity 100 last. *)
Example criticalAlerts_constructor :
  AlertData.intensity <$>
    UkraineMap.criticalAlerts
      (UkraineMap.processAlert 0 <$>
         [Samples.payload_critical ["drones"];
          Samples.payload_critical ["constructor"];
          Samples.payload_critical ["air_raid"]])
  = [Num 60; NaN; Num 100].
Proof. vm_compute. reflexivity. Qed.

(** The summary lists at most three critical alerts, the first three; when
    the intensity of each critical alert is a number, no critical alert it
    leaves out is more intense than one it lists. *)
Theorem listedCritical_top (values : list AlertData.t) :
  (List.length (UkraineMap.listedCritical values) ≤ 3)%nat
  ∧ UkraineMap.criticalAlerts values
    = (UkraineMap.listedCritical values ++ drop 3 (UkraineMap.criticalAlerts values))%list
  ∧ (Forall (fun a => AlertData.intensity a ≠ NaN)
            (filter (fun a => AlertData.isActive a && AlertData.isCritical a) values) →
     ∀ a b : AlertData.t,
       a ∈ UkraineMap.listedCritical values →
       b ∈ drop 3 (UkraineMap.criticalAlerts values) →
       JsNum.le (AlertData.intensity b) (AlertData.intensity a)).
Proof.
  unfold UkraineMap.listedCritical, JsArray.slice0.
  split; [|split].
  - rewrite length_take. lia.
  - by rewrite take_drop.
  - intros Hnum a b Ha Hb.
    pose proof (criticalAlerts_descending values Hnum) as Hsorted.
    rewrite <- (take_drop 3) in Hsorted.
    by apply (StronglySorted_app_1_elem_of _ _ _ a b Hsorted).
Qed.

(** The counts of the summary: the critical alerts are no more than the
    active alerts, which are no more than the processed records. *)
Theorem criticalAlerts_count (values : list AlertData.t) :
  (List.length (UkraineMap.criticalAlerts values) ≤ UkraineMap.activeCount values)%nat
  ∧ (UkraineMap.activeCount values ≤ List.length values)%nat.
Proof.
  rewrite criticalAlerts_perm. unfold UkraineMap.activeCount.
  split; [apply active_critical_count | apply length_filter].
Qed.

(** ** Region bounds *)

(** A region without bounds contains no point, and neither does one whose
    bounds are inverted in latitude or in longitude; a region with
    well-formed bounds contains both corners of its box, the edges being
    part of it. *)
Theorem containsPoint_box {G : Type} (region : RegionData.t G) :
  (RegionData.bounds region = None →
   ∀ lat lng : Q, RegionData.containsPoint region lat lng = false)
  ∧ ∀ minLat minLng maxLat maxLng : Q,
      RegionData.bounds region = Some (minLat, minLng, maxLat, maxLng) →
      ((maxLat < minLat ∨ maxLng < minLng)%Q →
       ∀ lat lng : Q, RegionData.containsPoint region lat lng = false)
      ∧ ((minLat <= maxLat ∧ minLng <= maxLng)%Q →
         RegionData.containsPoint region minLat minLng = true
         ∧ RegionData.containsPoint region maxLat maxLng = true).
Proof.
  unfold RegionData.containsPoint. split.
  - by intros ->.
  - intros minLat minLng maxLat maxLng ->. split.
    + intros Hinv lat lng.
      apply not_true_is_false. intros Hin.
      repeat (apply andb_true_iff in Hin as [Hin ?]).
      repeat match goal with
             | H : Qle_bool _ _ = true |- _ => apply Qle_bool_iff in H
             end.
      destruct Hinv as [Hinv | Hinv]; eapply Qlt_not_le; try exact Hinv;
        eapply Qle_trans; eassumption.
    + intros [Hlat Hlng].
      split; repeat (apply andb_true_iff; split); apply Qle_bool_iff;
        first [apply Qle_refl | done].
Qed.

(** ** The legend and the colors of the map *)

Lemma getColor_of_primary (r : AlertData.t) (p : string) (meta : ThreatMeta) :
  AlertData.alertLevel r ≠ AlertLevel.NONE →
  AlertData.getPrimaryThreat r = Some p →
  ThreatMetadata !! p = Some meta →
  AlertData.getColor r = Some (color meta).
Proof.
  intros Hlevel Hp Hmeta. unfold AlertData.getColor, ThreatMetadata_at.
  apply String.eqb_neq in Hlevel. rewrite Hlevel, Hp, Hmeta.
  destruct (truthy p) eqn:Ht; [done|].
  apply negb_false_iff, String.eqb_eq in Ht. subst p.
  by rewrite ThreatMetadata_no_empty_key in Hmeta.
Qed.

(** In either language the legend explains the neutral color of a record
    of level [none] and, for any other record, the color, icon and pattern
    of a primary threat with metadata, with one exception: ballistic
    missiles, whose color is no item of the legend. *)
Theorem legend_covers_colors (language : string) (r : AlertData.t) :
  (AlertData.alertLevel r = AlertLevel.NONE →
   ∃ item : Legend.item,
     item ∈ Legend.legendItems language
     ∧ Legend.type item = "clear"
     ∧ Some (Legend.color item) = AlertData.getColor r)
  ∧ (AlertData.alertLevel r ≠ AlertLevel.NONE →
     ∀ (p : string) (meta : ThreatMeta),
       AlertData.getPrimaryThreat r = Some p →
       ThreatMetadata !! p = Some meta →
       p ≠ ThreatType.BALLISTIC_MISSILES →
       ∃ item : Legend.item,
         item ∈ Legend.legendItems language
         ∧ Some (Legend.color item) = AlertData.getColor r
         ∧ Legend.icon item = icon meta
         ∧ Legend.pattern item = pattern meta)
  ∧ (∀ meta : ThreatMeta,
       ThreatMetadata !! ThreatType.BALLISTIC_MISSILES = Some meta →
       ∀ item : Legend.item,
         item ∈ Legend.legendItems language → Legend.color item ≠ color meta).
Proof.
  split; [|split].
  - intros Hlevel. unfold AlertData.getColor. rewrite Hlevel. cbn.
    apply Exists_exists. unfold Legend.legendItems.
    destruct (String.eqb language "uk");
      apply (bool_decide_unpack _); by vm_compute.
  - intros Hlevel p meta Hp Hmeta Hne.
    rewrite (getColor_of_primary r p meta Hlevel Hp Hmeta).
    unfold ThreatMetadata in Hmeta. apply elem_of_list_to_map_2 in Hmeta.
    apply Exists_exists. unfold Legend.legendItems.
    repeat (apply elem_of_cons in Hmeta as [Heq | Hmeta];
            [ inversion Heq; subst; try done;
              destruct (String.eqb language "uk");
              apply (bool_decide_unpack _); by vm_compute | ]).
    by apply elem_of_nil in Hmeta.
  - intros meta Hmeta item Hin.
    assert (color meta = "#cc0000") as -> by (vm_compute in Hmeta; by inversion Hmeta).
    revert item Hin. apply Forall_forall. unfold Legend.legendItems.
    destruct (String.eqb language "uk");
      apply (bool_decide_unpack _); by vm_compute.
Qed.

(** ** The processed alerts of the map *)



(** ** Ordering, once more *)

(** A list of at most one object is returned as it is, no method being
    called; a list of two or more history entries makes the sort throw,
    [isCritical] being no method of theirs. *)
Theorem sortByAlertPriority_short_or_history :
  (∀ regions : list obj,
     (List.length regions ≤ 1)%nat → AlertUtils.sortByAlertPriority regions = Ok regions)
  ∧ (∀ entries : list AlertHistoryEntry.t,
       (2 ≤ List.length entries)%nat →
       AlertUtils.sortByAlertPriority (OHistory <$> entries) = TypeError no_isCritical).
Proof.
  unfold AlertUtils.sortByAlertPriority. split.
  - intros [|x [|y l]] Hlen; [done | done | cbn in Hlen; lia].
  - assert (∀ entries : list AlertHistoryEntry.t,
              (∃ l, AlertUtils.sort (OHistory <$> entries) = Ok l
                    ∧ List.length l = List.length entries ∧ (List.length entries ≤ 1)%nat)
              ∨ (AlertUtils.sort (OHistory <$> entries) = TypeError no_isCritical
                 ∧ (2 ≤ List.length entries)%nat)) as Hsort.
    { induction entries as [|h l IH].
      - left. exists []. cbn. repeat split; lia.
      - rewrite fmap_cons. cbn [AlertUtils.sort].
        destruct IH as [(sorted & -> & Hlen & Hle) | [-> Hge]].
        + cbn. destruct sorted as [|y sorted].
          * left. exists [OHistory h]. cbn in *. repeat split; lia.
          * right. cbn in *. split; [done | lia].
        + right. cbn. split; [done | lia]. }
    intros entries Hlen.
    destruct (Hsort entries) as [(l & _ & _ & Hle) | [Hthrow _]]; [lia | done].
Qed.

(** [B], [raid] and [A] differ pairwise in criticality or intensity. *)
Lemma sortByAlertPriority_distinct_witness :
  ∃ l' : list AlertData.t,
    AlertUtils.sortByAlertPriority (OAlert <$> [Samples.B; Samples.raid; Samples.A])
    = Ok (OAlert <$> l')
    ∧ l' ≡ₚ [Samples.B; Samples.raid; Samples.A]
    ∧ StronglySorted precedes l'.
Proof.
  apply (sortByAlertPriority_distinct [Samples.B; Samples.raid; Samples.A]).
  assert (distinct_keys Samples.B Samples.raid) by (right; discriminate).
  assert (distinct_keys Samples.B Samples.A) by (left; discriminate).
  assert (distinct_keys Samples.raid Samples.A) by (left; discriminate).
  repeat first [ apply FOP_cons | apply FOP_nil | apply Forall_cons_2
               | apply Forall_nil_2 | assumption ].
Defined.

(** ** Levels across the scale *)

(** From zero upwards a higher intensity never gets a lower level; below
    zero every intensity is classed LOW, above the NONE of zero. *)
Theorem getAlertLevelFromIntensity_order (i j : Z) :
  (0 ≤ i ≤ j →
   levelRank (AlertUtils.getAlertLevelFromIntensity (Num i))
   ≤ levelRank (AlertUtils.getAlertLevelFromIntensity (Num j)))
  ∧ (i < 0 →
     AlertUtils.getAlertLevelFromIntensity (Num i) = AlertLevel.LOW
     ∧ levelRank (AlertUtils.getAlertLevelFromIntensity (Num 0))
       < levelRank (AlertUtils.getAlertLevelFromIntensity (Num i))).
Proof.
  unfold AlertUtils.getAlertLevelFromIntensity. cbn [JsNum.eqb JsNum.ltb]. split.
  - intros [Hi Hij].
    repeat match goal with
           | |- context [?a =? ?b] => destruct (Z.eqb_spec a b)
           | |- context [?a <? ?b] => destruct (Z.ltb_spec a b)
           end; first [lia | by vm_compute].
  - intros Hi.
    destruct (Z.eqb_spec i 0); [lia|].
    destruct (Z.ltb_spec i 20); [|lia].
    split; [done | by vm_compute].
Qed.
